(** * DDP_backend: column-insight interface, org functions and the
    user/org API, embedded from the Python sources.

  Layout: Part I holds the embedding (one module per source file),
  Part II the properties proved about it.

  Python conventions used throughout:
  - a call either returns a value or raises; [outcome] records which;
  - a method that may assign to [self] is a function returning the new
    [self] next to its outcome;
  - code that talks to the Django tables or to outside services threads a
    [World] explicitly. *)

From Stdlib Require Import ZArith String Ascii Lia.
From stdpp Require Import base option list gmap strings.

Set Warnings "-register-all".

Open Scope string_scope.

(* ===================================================================== *)
(** * Part I.  The embedding                                             *)
(* ===================================================================== *)

(** ** Python values, exceptions and control flow *)
Module Py.

(** Exceptions seen by the embedded code.  [ConstructionError] and
    [MergeLengthMismatchError] are named by the specification only; no
    source file defines or raises them.  [Exception] stands for any other
    instance of Python's [Exception] raised by a collaborator, carrying
    its [str()]. *)
Inductive exn : Type :=
| HttpError (status : Z) (message : string)
| KeyError (key : string)
| TypeError (message : string)
| AttributeError (message : string)
| ValueError (message : string)
| DoesNotExist
| ConstructionError
| MergeLengthMismatchError
| IntegrityError (message : string)
| Exception (message : string).

(** [str(err)] *)
Definition str (e : exn) : string :=
  match e with
  | HttpError _ m => m
  | KeyError k => "'" ++ k ++ "'"
  | TypeError m | AttributeError m | ValueError m | IntegrityError m
  | Exception m => m
  | DoesNotExist => "matching query does not exist."
  | ConstructionError => "ConstructionError"
  | MergeLengthMismatchError => "MergeLengthMismatchError"
  end.

Inductive outcome (A : Type) : Type :=
| Returned (a : A)
| Raised (e : exn).
Arguments Returned {A} a.
Arguments Raised {A} e.

#[export] Instance outcome_ret : MRet outcome := @Returned.
#[export] Instance outcome_bind : MBind outcome := fun A B f m =>
  match m with
  | Returned a => f a
  | Raised e => Raised e
  end.

(** JSON-like data: request dictionaries, credentials, feature tables. *)
Inductive json : Type :=
| JNull
| JBool (b : bool)
| JNum (n : Z)
| JStr (s : string)
| JList (l : list json)
| JObj (fields : list (string * json)).

(** [s[:n]] on a [str]. *)
Definition slice_to (n : nat) (s : string) : string := String.substring 0 n s.

End Py.
Import Py.

(** ** ddpui/datainsights/insights/insight_interface.py *)
Module insight_interface.

(** Modelled from the spec: [WarehouseType], imported from
    [ddpui.datainsights.warehouse.warehouse_interface], which is not part
    of the sources.  The spec gives it as the closed enumeration
    {POSTGRES, BIGQUERY, SNOWFLAKE}. *)
Inductive WarehouseType : Type := POSTGRES | BIGQUERY | SNOWFLAKE.

(** What a caller can pass as [wtype] (annotated [str], default [None]),
    and hence what the [wtype] attribute can hold. *)
Inductive wtype_value : Type :=
| WNone
| WStr (s : string)
| WEnum (w : WarehouseType).

(** Names imported by the module whose definitions are not part of the
    sources: the builder class with its constructor, sqlalchemy's
    [Select], the filter dictionary and the cells of a result row. *)
Class Imports : Type := {
  AggQueryBuilder : Type;
  AggQueryBuilder_new : AggQueryBuilder;   (* [AggQueryBuilder()] *)
  Select : Type;
  Filter : Type;
  Cell : Type
}.

(** [list[dict]]: the rows handed to [parse_results]/[merge_output]. *)
Definition Rows `{Imports} : Type := list (gmap string Cell).

Module ColInsight.
Section Class.
Context `{Imports}.

Record t : Type := {
  column_name : string;
  builder : AggQueryBuilder;
  db_table : string;
  db_schema : string;
  filter : option Filter;
  wtype : wtype_value
}.

Definition __init__ (column_name db_table db_schema : string)
    (filter : option Filter) (wtype : wtype_value) : outcome t :=
  Returned {| column_name := column_name;
              builder := AggQueryBuilder_new;
              db_table := db_table;
              db_schema := db_schema;
              filter := filter;
              wtype := wtype |}.

(** [@abstractmethod] with body [pass]: returns [None], touches nothing. *)
Definition generate_sql (self : t) : outcome (option Select) * t :=
  (Returned None, self).

Definition parse_results (self : t) (result : Rows)
  : outcome (option (gmap string Cell)) * t :=
  (Returned None, self).

Definition chart_type (self : t) : outcome (option string) * t :=
  (Returned None, self).

(** The identity fields of an instance. *)
Definition identity (self : t)
  : string * string * string * option Filter * wtype_value :=
  (column_name self, db_table self, db_schema self, filter self, wtype self).

(** A concrete subclass: it has to supply the two abstract methods and may
    or may not override [chart_type]. *)
Record subclass : Type := {
  sub_generate_sql : t -> outcome (option Select) * t;
  sub_parse_results : t -> Rows -> outcome (option (gmap string Cell)) * t;
  sub_chart_type : option (t -> outcome (option string) * t)
}.

(** Method resolution for [obj.chart_type()]. *)
Definition resolve_chart_type (k : subclass) : t -> outcome (option string) * t :=
  match sub_chart_type k with
  | Some overridden => overridden
  | None => chart_type
  end.

End Class.
End ColInsight.

Module DataTypeColInsights.
Section Class.
Context `{Imports}.

(** An element of [self.insights]: an instance together with its class. *)
Record insight : Type := {
  insight_class : ColInsight.subclass;
  insight_self : ColInsight.t
}.

Record t : Type := {
  column_name : string;
  db_table : string;
  db_schema : string;
  insights : list insight;
  filter : option Filter;
  wtype : wtype_value
}.

Definition __init__ (column_name db_table db_schema : string)
    (filter : option Filter) (wtype : wtype_value) : outcome t :=
  Returned {| column_name := column_name;
              db_table := db_table;
              db_schema := db_schema;
              insights := [];
              filter := filter;
              wtype := WEnum POSTGRES |}.

Definition generate_sqls (self : t) : outcome (option (list Select)) * t :=
  (Returned None, self).

Definition merge_output (self : t) (results : Rows)
  : outcome (option (gmap string Cell)) * t :=
  (Returned None, self).

Definition get_col_type (self : t) : outcome (option string) * t :=
  (Returned None, self).

Definition identity (self : t)
  : string * string * string * option Filter * wtype_value :=
  (column_name self, db_table self, db_schema self, filter self, wtype self).

End Class.
End DataTypeColInsights.

End insight_interface.

(** ** Concrete coordinators *)
Module coordinator.
Section Spec.
Context `{insight_interface.Imports} {InsightValue : Type}.
Import insight_interface.

(** Modelled from the spec: a metric plugin as section 4.3 gives it.  The
    sources declare [generate_sql] and [parse_results] abstract and contain
    no concrete plugin. *)
Record MetricPlugin : Type := {
  metric_key : string;
  plugin_generate_sql : outcome Select;
  plugin_parse_results : Rows -> outcome InsightValue
}.

(** Modelled from the spec: a concrete data-type coordinator (section 4.4),
    an ordered, fixed list of metric plugins next to the fields of the base
    class.  The sources declare [generate_sqls] and [merge_output] abstract
    and contain no concrete coordinator. *)
Record t : Type := {
  base : DataTypeColInsights.t;
  plugins : list MetricPlugin
}.

(** Modelled from the spec: "returns the ordered list of CompiledQuery from
    each owned plugin, in the plugin's declaration order". *)
Definition generate_sqls (self : t) : outcome (list Select) :=
  mapM plugin_generate_sql (plugins self).

(** "For i-th result set, delegates to the i-th plugin's parse_results,
    then inserts into the ColumnProfile under that plugin's metric key." *)
Fixpoint merge_rows (ps : list MetricPlugin) (results : list Rows)
    (profile : gmap string InsightValue) : outcome (gmap string InsightValue) :=
  match ps, results with
  | p :: ps', r :: results' =>
      v ← plugin_parse_results p r;
      merge_rows ps' results' (<[metric_key p := v]> profile)
  | _, _ => Returned profile
  end.

(** Modelled from the spec: "requires len(results) == len(generate_sqls())
    for the same instance; mismatch is an error, not a best-effort merge". *)
Definition merge_output (self : t) (results : list Rows)
  : outcome (gmap string InsightValue) :=
  sqls ← generate_sqls self;
  if bool_decide (length results = length sqls)
  then merge_rows (plugins self) results ∅
  else Raised MergeLengthMismatchError.

End Spec.
End coordinator.

(** ** Django models and the world the org code runs in *)
Module models.

(** Modelled from the sources' use of [ddpui.models.*], whose definitions
    are not part of the sources: each record keeps the attributes that the
    embedded functions read or write.  [None] as primary key marks an
    object that has not been saved. *)
Record Org : Type := {
  org_id : option nat;
  org_name : string;
  org_slug : option string;
  org_airbyte_workspace_id : option string
}.

Record OrgPlans : Type := {
  plan_id : option nat;
  plan_org : option nat;
  plan_base_plan : string;
  plan_can_upgrade_plan : bool;
  plan_subscription_duration : string;
  plan_superset_included : bool;
  plan_start_date : option string;
  plan_end_date : option string;
  plan_features : json
}.

Record OrgWarehouse : Type := {
  warehouse_id : option nat;
  warehouse_org : option nat;
  warehouse_name : string;
  warehouse_wtype : string;
  warehouse_credentials : string;
  warehouse_airbyte_destination_id : json
}.

Record User : Type := { user_id : nat; user_email : string }.

Inductive OrgUserRole : Type :=
| ACCOUNT_MANAGER
| PIPELINE_MANAGER
| other_role (n : nat).

Record OrgUser : Type := {
  orguser_id : option nat;
  orguser_user : User;
  orguser_org : option nat;
  orguser_role : OrgUserRole;
  orguser_email_verified : bool
}.

Record UserAttributes : Type := {
  attributes_user : nat;
  can_create_orgs : bool;
  is_consultant : bool
}.

Record AirbyteWorkspace : Type := { workspaceId : string }.

(** Request payloads. *)
Record CreateOrgSchema : Type := {
  name : string;
  base_plan : string;
  can_upgrade_plan : bool;
  subscription_duration : string;
  superset_included : bool;
  start_date : option string;
  end_date : option string
}.

Record OrgSchema : Type := {
  schema_name : string;
  schema_airbyte_workspace_id : option string;
  schema_slug : option string
}.

Record OrgWarehouseSchema : Type := {
  payload_wtype : string;
  payload_name : string;
  payload_destinationDefId : string;
  payload_airbyteConfig : gmap string json
}.

Record Request : Type := { request_orguser : OrgUser }.

(** The Django tables (rows in primary-key order, with the next key of each
    auto-increment column), the state of everything outside Django
    (Airbyte, the secrets manager, the task queue) and the log. *)
Record World (Outside : Type) : Type := {
  orgs : list Org;
  orgs_seq : nat;
  orgplans : list OrgPlans;
  orgplans_seq : nat;
  orgwarehouses : list OrgWarehouse;
  orgwarehouses_seq : nat;
  orgusers : list OrgUser;
  orgusers_seq : nat;
  userattributes : list UserAttributes;
  outside : Outside;
  log : list string
}.
Arguments orgs {Outside} _.
Arguments orgs_seq {Outside} _.
Arguments orgplans {Outside} _.
Arguments orgplans_seq {Outside} _.
Arguments orgwarehouses {Outside} _.
Arguments orgwarehouses_seq {Outside} _.
Arguments orgusers {Outside} _.
Arguments orgusers_seq {Outside} _.
Arguments userattributes {Outside} _.
Arguments outside {Outside} _.
Arguments log {Outside} _.

(** Code and constants this repository imports but whose definitions are
    not part of the sources.  A service that only talks to the outside
    transforms [Outside]; [setup_airbyte_workspace_v1] receives the [Org]
    object and may change it and any table. *)
Class Collaborators : Type := {
  Outside : Type;
  slugify : string -> string;
  AIRBYTE_CUSTOM_SOURCES : list (string * json);
  FREE_TRIAL : json;
  DALGO : json;
  DALGO_WITH_SUPERSET : json;
  json_loads : string -> outcome json;
  setup_airbyte_workspace_v1 :
    option string -> Org -> World Outside ->
    outcome AirbyteWorkspace * (Org * World Outside);
  add_custom_connectors_to_workspace_delay :
    string -> list json -> Outside -> outcome unit * Outside;
  create_destination :
    option string -> string -> string -> gmap string json -> Outside ->
    outcome (gmap string json) * Outside;
  save_warehouse_credentials :
    OrgWarehouse -> option json -> Outside -> outcome string * Outside
}.

End models.

(** ** The Django ORM calls and the logger, as far as the sources use them *)
Module orm.
Import models.

(** A computation over the world that returns or raises. *)
Definition M (W A : Type) : Type := W -> outcome A * W.

#[export] Instance M_ret {W} : MRet (M W) := fun A a w => (Returned a, w).
#[export] Instance M_bind {W} : MBind (M W) := fun A B f m w =>
  match m w with
  | (Returned a, w') => f a w'
  | (Raised e, w') => (Raised e, w')
  end.

Definition raise {W A} (e : exn) : M W A := fun w => (Raised e, w).

(** A pure step that may raise, run inside [M]. *)
Definition lift {W A} (r : outcome A) : M W A := fun w => (r, w).

(** [str.lower()] on ASCII letters; case folding beyond ASCII is left to the
    database collation and is not needed by any property below. *)
Definition lower_ascii (c : ascii) : ascii :=
  let n := nat_of_ascii c in
  if (65 <=? n)%nat && (n <=? 90)%nat then ascii_of_nat (n + 32) else c.

Fixpoint lower (s : string) : string :=
  match s with
  | EmptyString => EmptyString
  | String c s' => String (lower_ascii c) (lower s')
  end.

(** [queryset.first()] on rows kept in primary-key order. *)
Definition first {A} (rows : list A) : option A := head rows.

(** [d[key]] on a dictionary. *)
Definition getitem (d : gmap string json) (key : string) : outcome json :=
  match d !! key with
  | Some v => Returned v
  | None => Raised (KeyError key)
  end.

Section Tables.
Context {Outside : Type}.
#[local] Abbreviation World := (models.World Outside).

Definition set_orgs (rows : list Org) (seq : nat) (w : World) : World :=
  {| orgs := rows; orgs_seq := seq;
     orgplans := orgplans w; orgplans_seq := orgplans_seq w;
     orgwarehouses := orgwarehouses w; orgwarehouses_seq := orgwarehouses_seq w;
     orgusers := orgusers w; orgusers_seq := orgusers_seq w;
     userattributes := userattributes w; outside := outside w; log := log w |}.

Definition set_orgplans (rows : list OrgPlans) (seq : nat) (w : World) : World :=
  {| orgs := orgs w; orgs_seq := orgs_seq w;
     orgplans := rows; orgplans_seq := seq;
     orgwarehouses := orgwarehouses w; orgwarehouses_seq := orgwarehouses_seq w;
     orgusers := orgusers w; orgusers_seq := orgusers_seq w;
     userattributes := userattributes w; outside := outside w; log := log w |}.

Definition set_orgwarehouses (rows : list OrgWarehouse) (seq : nat) (w : World) : World :=
  {| orgs := orgs w; orgs_seq := orgs_seq w;
     orgplans := orgplans w; orgplans_seq := orgplans_seq w;
     orgwarehouses := rows; orgwarehouses_seq := seq;
     orgusers := orgusers w; orgusers_seq := orgusers_seq w;
     userattributes := userattributes w; outside := outside w; log := log w |}.

Definition set_orgusers (rows : list OrgUser) (seq : nat) (w : World) : World :=
  {| orgs := orgs w; orgs_seq := orgs_seq w;
     orgplans := orgplans w; orgplans_seq := orgplans_seq w;
     orgwarehouses := orgwarehouses w; orgwarehouses_seq := orgwarehouses_seq w;
     orgusers := rows; orgusers_seq := seq;
     userattributes := userattributes w; outside := outside w; log := log w |}.

Definition set_outside (o : Outside) (w : World) : World :=
  {| orgs := orgs w; orgs_seq := orgs_seq w;
     orgplans := orgplans w; orgplans_seq := orgplans_seq w;
     orgwarehouses := orgwarehouses w; orgwarehouses_seq := orgwarehouses_seq w;
     orgusers := orgusers w; orgusers_seq := orgusers_seq w;
     userattributes := userattributes w; outside := o; log := log w |}.

Definition set_log (l : list string) (w : World) : World :=
  {| orgs := orgs w; orgs_seq := orgs_seq w;
     orgplans := orgplans w; orgplans_seq := orgplans_seq w;
     orgwarehouses := orgwarehouses w; orgwarehouses_seq := orgwarehouses_seq w;
     orgusers := orgusers w; orgusers_seq := orgusers_seq w;
     userattributes := userattributes w; outside := outside w; log := l |}.

(** A call to a service that only touches the outside. *)
Definition call_outside {A} (f : Outside -> outcome A * Outside) : M World A :=
  fun w => let '(r, o) := f (outside w) in (r, set_outside o w).

(** [logger.info(msg)] and [logger.error(msg)] *)
Definition logger_info (msg : string) : M World unit :=
  fun w => (Returned tt, set_log (log w ++ ["INFO " ++ msg]) w).

Definition logger_error (msg : string) : M World unit :=
  fun w => (Returned tt, set_log (log w ++ ["ERROR " ++ msg]) w).

(** [Org(name=...)] *)
Definition Org_new (name : string) : Org :=
  {| org_id := None; org_name := name; org_slug := None;
     org_airbyte_workspace_id := None |}.

(** [org.slug = value] *)
Definition Org_set_slug (value : string) (org : Org) : Org :=
  {| org_id := org_id org; org_name := org_name org; org_slug := Some value;
     org_airbyte_workspace_id := org_airbyte_workspace_id org |}.

Definition Org_set_id (k : nat) (org : Org) : Org :=
  {| org_id := Some k; org_name := org_name org; org_slug := org_slug org;
     org_airbyte_workspace_id := org_airbyte_workspace_id org |}.

Definition Org_has_id (k : nat) (row : Org) : bool :=
  bool_decide (org_id row = Some k).

(** [Org.objects.filter(name__iexact=value)] *)
Definition name__iexact (value : string) (row : Org) : bool :=
  String.eqb (lower (org_name row)) (lower value).

(** [org.save()]: an unsaved object is inserted under the next key; a saved
    one overwrites its row, or is inserted when its row is gone.  Returns
    the object as it is after the call. *)
Definition Org_save (org : Org) (w : World) : Org * World :=
  match org_id org with
  | None =>
      let org' := Org_set_id (orgs_seq w) org in
      (org', set_orgs (orgs w ++ [org']) (S (orgs_seq w)) w)
  | Some k =>
      if existsb (Org_has_id k) (orgs w)
      then (org, set_orgs (map (fun row => if Org_has_id k row then org else row)
                               (orgs w)) (orgs_seq w) w)
      else (org, set_orgs (orgs w ++ [org]) (orgs_seq w) w)
  end.

(** [org.delete()]: removes the row with the object's key; Django refuses
    an object without a key.  Rows of other tables are left alone. *)
Definition Org_delete (org : Org) : M World unit := fun w =>
  match org_id org with
  | None => (Raised (ValueError "Org object can't be deleted because its id attribute is set to None."), w)
  | Some k =>
      (Returned tt,
       set_orgs (List.filter (fun row => negb (Org_has_id k row)) (orgs w))
                (orgs_seq w) w)
  end.

(** [org.refresh_from_db()]: the object as reloaded from its row. *)
Definition Org_refresh_from_db (org : Org) : M World Org := fun w =>
  match org_id org with
  | None => (Raised DoesNotExist, w)
  | Some k =>
      match first (List.filter (Org_has_id k) (orgs w)) with
      | Some row => (Returned row, w)
      | None => (Raised DoesNotExist, w)
      end
  end.

(** [OrgPlans.objects.create(org=org, **fields)]: the row is inserted under
    the next key when [org] is a row of the [Org] table.  Django refuses an
    [org] that was never saved, and the database refuses a key that no
    [Org] row has; neither writes anything. *)
Definition OrgPlans_create (org : Org) (fields : OrgPlans) : M World OrgPlans :=
  fun w =>
  match org_id org with
  | None =>
      (Raised (ValueError "save() prohibited to prevent data loss due to unsaved related object 'org'."), w)
  | Some k =>
      if existsb (Org_has_id k) (orgs w)
      then
        let row :=
          {| plan_id := Some (orgplans_seq w);
             plan_org := Some k;
             plan_base_plan := plan_base_plan fields;
             plan_can_upgrade_plan := plan_can_upgrade_plan fields;
             plan_subscription_duration := plan_subscription_duration fields;
             plan_superset_included := plan_superset_included fields;
             plan_start_date := plan_start_date fields;
             plan_end_date := plan_end_date fields;
             plan_features := plan_features fields |} in
        (Returned row,
         set_orgplans (orgplans w ++ [row]) (S (orgplans_seq w)) w)
      else
        (Raised (IntegrityError "insert or update on table violates foreign key constraint"), w)
  end.

End Tables.
End orm.

(** ** ddpui/core/orgfunctions.py *)
Module orgfunctions.
Import models orm.
Section Functions.
Context `{Collaborators}.
#[local] Abbreviation World := (models.World Outside).

(** The body of the [try:] block of [create_organization], run on the
    local variable [org] and the world. *)
Definition create_organization_try (org : Org) (w : World)
  : outcome unit * (Org * World) :=
  let '(r, (org, w)) := setup_airbyte_workspace_v1 (org_slug org) org w in
  match r with
  | Raised err => (Raised err, (org, w))
  | Returned workspace =>
      let '(r, w) :=
        call_outside
          (add_custom_connectors_to_workspace_delay
             (workspaceId workspace) (map snd AIRBYTE_CUSTOM_SOURCES)) w in
      (r, (org, w))
  end.

Definition create_organization (payload : CreateOrgSchema)
  : M World (option Org * option string) := fun w =>
  let org := first (List.filter (name__iexact (name payload)) (orgs w)) in
  match org with
  | Some _ => (Returned (None, Some "client org with this name already exists"), w)
  | None =>
      let org := Org_new (name payload) in
      let org := Org_set_slug (slice_to 20 (slugify (org_name org))) org in
      let '(org, w) := Org_save org w in
      match create_organization_try org w with
      | (Raised err, (org, w)) =>
          (_ ← logger_error ("could not create airbyte workspace: " ++ str err);
           _ ← Org_delete org;
           mret (None, Some "could not create airbyte workspace")) w
      | (Returned _, (org, w)) =>
          (org ← Org_refresh_from_db org;
           mret (Some org, None)) w
      end
  end.

Definition create_orgPlan (payload : CreateOrgSchema) (org : Org)
  : M World (option OrgPlans * option string) := fun w =>
  let existing_plan :=
    first (List.filter (fun row => bool_decide (plan_org row = org_id org))
                       (orgplans w)) in
  match existing_plan with
  | Some _ => (Returned (None, Some "client org's plan already exists"), w)
  | None =>
      let features := JObj [] in
      let features :=
        if String.eqb (base_plan payload) "Free Trial" then FREE_TRIAL
        else if String.eqb (base_plan payload) "Internal" then DALGO_WITH_SUPERSET
        else if String.eqb (base_plan payload) "Dalgo" && superset_included payload
        then DALGO_WITH_SUPERSET
        else if String.eqb (base_plan payload) "Dalgo"
                && negb (superset_included payload)
        then DALGO
        else features in
      let plan_payload :=
        {| plan_id := None;
           plan_org := org_id org;
           plan_base_plan := base_plan payload;
           plan_can_upgrade_plan := can_upgrade_plan payload;
           plan_subscription_duration := subscription_duration payload;
           plan_superset_included := superset_included payload;
           plan_start_date := start_date payload;
           plan_end_date := end_date payload;
           plan_features := features |} in
      (org_plan ← OrgPlans_create org plan_payload;
       mret (Some org_plan, None)) w
  end.

End Functions.
End orgfunctions.

(** ** ddpui/api/user_org_api.py *)
Module user_org_api.
Import models orm.
Section Api.
Context `{Collaborators}.
#[local] Abbreviation World := (models.World Outside).

(** [orguser.org]: the related row, or [None] when the key is null. *)
Definition OrgUser_org (orguser : OrgUser) : M World (option Org) := fun w =>
  match orguser_org orguser with
  | None => (Returned None, w)
  | Some k =>
      match first (List.filter (Org_has_id k) (orgs w)) with
      | Some row => (Returned (Some row), w)
      | None => (Raised DoesNotExist, w)
      end
  end.

Definition OrgUser_set_org (org : Org) (orguser : OrgUser) : OrgUser :=
  {| orguser_id := orguser_id orguser; orguser_user := orguser_user orguser;
     orguser_org := org_id org; orguser_role := orguser_role orguser;
     orguser_email_verified := orguser_email_verified orguser |}.

Definition OrgUser_set_id (k : nat) (orguser : OrgUser) : OrgUser :=
  {| orguser_id := Some k; orguser_user := orguser_user orguser;
     orguser_org := orguser_org orguser; orguser_role := orguser_role orguser;
     orguser_email_verified := orguser_email_verified orguser |}.

Definition OrgUser_has_id (k : nat) (row : OrgUser) : bool :=
  bool_decide (orguser_id row = Some k).

(** [orguser.save()] *)
Definition OrgUser_save (orguser : OrgUser) : M World OrgUser := fun w =>
  match orguser_id orguser with
  | None =>
      let orguser' := OrgUser_set_id (orgusers_seq w) orguser in
      (Returned orguser',
       set_orgusers (orgusers w ++ [orguser']) (S (orgusers_seq w)) w)
  | Some k =>
      if existsb (OrgUser_has_id k) (orgusers w)
      then (Returned orguser,
            set_orgusers
              (map (fun row => if OrgUser_has_id k row then orguser else row)
                   (orgusers w)) (orgusers_seq w) w)
      else (Returned orguser,
            set_orgusers (orgusers w ++ [orguser]) (orgusers_seq w) w)
  end.

(** [warehouse.save()] on a new object. *)
Definition OrgWarehouse_save (warehouse : OrgWarehouse) : M World unit := fun w =>
  let row :=
    {| warehouse_id := Some (orgwarehouses_seq w);
       warehouse_org := warehouse_org warehouse;
       warehouse_name := warehouse_name warehouse;
       warehouse_wtype := warehouse_wtype warehouse;
       warehouse_credentials := warehouse_credentials warehouse;
       warehouse_airbyte_destination_id :=
         warehouse_airbyte_destination_id warehouse |} in
  (Returned tt,
   set_orgwarehouses (orgwarehouses w ++ [row]) (S (orgwarehouses_seq w)) w).

(** ["text" + value]: concatenation needs a [str] on the right. *)
Definition concat_str (text : string) (value : json) : outcome string :=
  match value with
  | JStr s => Returned (text ++ s)
  | _ => Raised (TypeError "can only concatenate str to str")
  end.

(** The [if]/[elif] chain that prepares the dbt credentials from
    [airbyteConfig]; dictionary entries are evaluated in source order. *)
Definition dbt_credentials_of (payload : OrgWarehouseSchema)
  : outcome (option json) :=
  let config := payload_airbyteConfig payload in
  if String.eqb (payload_wtype payload) "postgres" then
    host ← getitem config "host";
    port ← getitem config "port";
    username ← getitem config "username";
    password ← getitem config "password";
    database ← getitem config "database";
    mret (Some (JObj [("host", host); ("port", port); ("username", username);
                      ("password", password); ("database", database)]))
  else if String.eqb (payload_wtype payload) "bigquery" then
    credentials_json ← getitem config "credentials_json";
    match credentials_json with
    | JStr s =>
        loaded ← json_loads s;
        mret (match loaded with
              | JNull => None      (* [json.loads("null")] is [None] *)
              | _ => Some loaded
              end)
    | _ => Raised (TypeError "the JSON object must be str, bytes or bytearray")
    end
  else if String.eqb (payload_wtype payload) "snowflake" then
    host ← getitem config "host";
    role ← getitem config "role";
    warehouse ← getitem config "warehouse";
    database ← getitem config "database";
    schema ← getitem config "schema";
    username ← getitem config "username";
    credentials ← getitem config "credentials";
    mret (Some (JObj [("host", host); ("role", role); ("warehouse", warehouse);
                      ("database", database); ("schema", schema);
                      ("username", username); ("credentials", credentials)]))
  else mret None.

Definition post_organization_warehouse (request : Request)
    (payload : OrgWarehouseSchema) : M World json :=
  let orguser := request_orguser request in
  if negb (existsb (String.eqb (payload_wtype payload))
                   ["postgres"; "bigquery"; "snowflake"])
  then raise (HttpError 400 ("unrecognized warehouse type " ++ payload_wtype payload))
  else
    org ← OrgUser_org orguser;
    workspace_id ←
      match org with
      | Some org => mret (org_airbyte_workspace_id org)
      | None => raise (AttributeError "'NoneType' object has no attribute 'airbyte_workspace_id'")
      end;
    destination ← call_outside
      (create_destination workspace_id (payload_wtype payload ++ "-warehouse")
         (payload_destinationDefId payload) (payload_airbyteConfig payload));
    destinationId ← lift (getitem destination "destinationId");
    message ← lift (concat_str "created destination having id " destinationId);
    _ ← logger_info message;
    dbt_credentials ← lift (dbt_credentials_of payload);
    destinationId ← lift (getitem destination "destinationId");
    let warehouse :=
      {| warehouse_id := None;
         warehouse_org := org ≫= org_id;
         warehouse_name := payload_name payload;
         warehouse_wtype := payload_wtype payload;
         warehouse_credentials := "";
         warehouse_airbyte_destination_id := destinationId |} in
    credentials_lookupkey ← call_outside
      (save_warehouse_credentials warehouse dbt_credentials);
    let warehouse :=
      {| warehouse_id := warehouse_id warehouse;
         warehouse_org := warehouse_org warehouse;
         warehouse_name := warehouse_name warehouse;
         warehouse_wtype := warehouse_wtype warehouse;
         warehouse_credentials := credentials_lookupkey;
         warehouse_airbyte_destination_id :=
           warehouse_airbyte_destination_id warehouse |} in
    _ ← OrgWarehouse_save warehouse;
    mret (JObj [("success", JNum 1)]).

Definition post_organization_v1 (request : Request) (payload : OrgSchema)
  : M World OrgSchema := fun w =>
  let userattributes :=
    first (List.filter
             (fun row => Nat.eqb (attributes_user row)
                                 (user_id (orguser_user (request_orguser request))))
             (models.userattributes w)) in
  if match userattributes with
     | None => true
     | Some attributes => negb (can_create_orgs attributes)
     end
  then (Raised (HttpError 403 "Insufficient permissions for this operation"), w)
  else
    let orguser := request_orguser request in
    let org := first (List.filter (name__iexact (schema_name payload)) (orgs w)) in
    match org with
    | Some _ => (Raised (HttpError 400 "client org with this name already exists"), w)
    | None =>
        let org := Org_new (schema_name payload) in
        let org := Org_set_slug (slice_to 20 (slugify (org_name org))) org in
        let '(org, w) := Org_save org w in
        let '(_, w) :=
          logger_info (user_email (orguser_user orguser) ++ " created new org "
                       ++ org_name org) w in
        match setup_airbyte_workspace_v1 (org_slug org) org w with
        | (Raised error, (org, w)) =>
            (_ ← Org_delete org;
             raise (HttpError 400 "could not create airbyte workspace")) w
        | (Returned new_workspace, (org, w)) =>
            (_ ← match orguser_org orguser with
                 | None => OrgUser_save (OrgUser_set_org org orguser)
                 | Some _ =>
                     OrgUser_save
                       {| orguser_id := None;
                          orguser_user := orguser_user orguser;
                          orguser_org := org_id org;
                          orguser_role := ACCOUNT_MANAGER;
                          orguser_email_verified := true |}
                 end;
             mret {| schema_name := org_name org;
                     schema_airbyte_workspace_id := Some (workspaceId new_workspace);
                     schema_slug := org_slug org |}) w
        end
    end.

End Api.
End user_org_api.

(** ** Statements about the collaborators, used by the properties below *)
Module contracts.
Import insight_interface models orm.

(** The unsupported-dialect guard as the specification words it, for a
    plugin class whose declared support set is [supports]. *)
Definition unsupported_dialect_guard `{Imports}
    (supports : WarehouseType -> bool) : Prop :=
  forall column_name db_table db_schema filter w,
    supports w = false ->
    ColInsight.__init__ column_name db_table db_schema filter (WEnum w)
    = Raised ConstructionError.

Section Collaborators.
Context `{Collaborators}.

(** What the org code relies on from [setup_airbyte_workspace_v1]: given a
    saved [Org] object, it keeps the object's key, and every row of the
    [Org] table afterwards is either a row that was there before or a row
    of this very org carrying the object's name and slug. *)
Definition setup_keeps_to_its_org : Prop :=
  forall slug org k w r org' w',
    org_id org = Some k ->
    setup_airbyte_workspace_v1 slug org w = (r, (org', w')) ->
    org_id org' = Some k
    /\ forall row, row ∈ orgs w' ->
         row ∈ orgs w
         \/ (org_id row = Some k /\ org_name row = org_name org
             /\ org_slug row = org_slug org).

(** The [Org] object as the two creating functions save it, with the world
    after [org.save()]. *)
Definition saved_org (name : string) (w : World Outside) : Org * World Outside :=
  Org_save (Org_set_slug (slice_to 20 (slugify (org_name (Org_new name))))
                         (Org_new name)) w.

(** [create_organization]'s call to [setup_airbyte_workspace_v1] raises
    [err]. *)
Definition setup_raises (payload : CreateOrgSchema) (w : World Outside)
    (err : exn) : Prop :=
  let '(org, w1) := saved_org (name payload) w in
  fst (setup_airbyte_workspace_v1 (org_slug org) org w1) = Raised err.

End Collaborators.
End contracts.

(** ** Concrete stand-ins for the imported names, used by the examples *)
Module examples.
Import insight_interface models orm.

(** A builder holding column clauses, SQL as text, a filter as
    field/operator/value triples, JSON cells. *)
Definition imports : Imports :=
  {| AggQueryBuilder := list string;
     AggQueryBuilder_new := [];
     Select := string;
     Filter := list (string * string * string);
     Cell := json |}.

(** A plugin class declaring that it runs on Postgres only. *)
Definition postgres_only (w : WarehouseType) : bool :=
  match w with
  | POSTGRES => true
  | _ => false
  end.

(** A subclass that inherits [chart_type]. *)
Definition plain_subclass : @ColInsight.subclass imports :=
  {| ColInsight.sub_generate_sql :=
       fun self => (Returned (Some ("SELECT 1" : @Select imports)), self);
     ColInsight.sub_parse_results := fun self _ => (Returned None, self);
     ColInsight.sub_chart_type := None |}.

(** A coordinator with one plugin. *)
Definition null_count : @coordinator.MetricPlugin imports Z :=
  {| coordinator.metric_key := "countNull";
     coordinator.plugin_generate_sql :=
       Returned ("SELECT COUNT(*)" : @Select imports);
     coordinator.plugin_parse_results := fun _ => Returned 0%Z |}.

Definition one_plugin : @coordinator.t imports Z :=
  {| coordinator.base :=
       {| DataTypeColInsights.column_name := "amount";
          DataTypeColInsights.db_table := "orders";
          DataTypeColInsights.db_schema := "public";
          DataTypeColInsights.insights := [];
          DataTypeColInsights.filter := None;
          DataTypeColInsights.wtype := WEnum POSTGRES |};
     coordinator.plugins := [null_count] |}.

(** The outside world of the examples: whether Airbyte answers, and a
    journal of what was asked of the outside services. *)
Record outside_state : Type := {
  airbyte_up : bool;
  journal : list string
}.

Definition record (entry : string) (o : outside_state) : outside_state :=
  {| airbyte_up := airbyte_up o; journal := journal o ++ [entry] |}.

(** A workspace helper that fails when Airbyte is down and otherwise stores
    the workspace id on the org and saves it. *)
Definition setup_workspace (slug : option string) (org : Org)
    (w : World outside_state)
  : outcome AirbyteWorkspace * (Org * World outside_state) :=
  if airbyte_up (outside w) then
    let id := "ws-" ++ default "" slug in
    let org :=
      {| org_id := org_id org; org_name := org_name org;
         org_slug := org_slug org; org_airbyte_workspace_id := Some id |} in
    (Returned {| workspaceId := id |}, Org_save org w)
  else (Raised (Exception "airbyte is not reachable"), (org, w)).

Definition collaborators : Collaborators :=
  {| Outside := outside_state;
     slugify := lower;
     AIRBYTE_CUSTOM_SOURCES := [("kobo", JStr "kobo-def")];
     FREE_TRIAL := JObj [("pipeline", JList [JStr "Ingest"])];
     DALGO := JObj [("pipeline", JList [JStr "Ingest"; JStr "Transform"])];
     DALGO_WITH_SUPERSET :=
       JObj [("pipeline", JList [JStr "Ingest"; JStr "Transform"]);
             ("superset", JList [JStr "Dashboards"])];
     json_loads := fun s => Returned (JStr s);
     setup_airbyte_workspace_v1 := setup_workspace;
     add_custom_connectors_to_workspace_delay :=
       fun workspace_id _ o => (Returned tt, record ("connectors " ++ workspace_id) o);
     create_destination :=
       fun _ name _ _ o =>
         (Returned {[ "destinationId" := JStr ("dest-" ++ name) ]},
          record ("destination " ++ name) o);
     save_warehouse_credentials :=
       fun warehouse _ o =>
         (Returned ("secret-" ++ warehouse_name warehouse),
          record ("secret " ++ warehouse_name warehouse) o) |}.

Definition empty_world (up : bool) : World outside_state :=
  {| orgs := []; orgs_seq := 1;
     orgplans := []; orgplans_seq := 1;
     orgwarehouses := []; orgwarehouses_seq := 1;
     orgusers := []; orgusers_seq := 1;
     userattributes := [];
     outside := {| airbyte_up := up; journal := [] |};
     log := [] |}.

Definition acme : CreateOrgSchema :=
  {| name := "Acme Rivers And Lakes Foundation";
     base_plan := "Dalgo";
     can_upgrade_plan := true;
     subscription_duration := "Monthly";
     superset_included := false;
     start_date := None;
     end_date := None |}.

(** The row that creating [acme] leaves in an empty table. *)
Definition acme_row : Org :=
  {| org_id := Some 1;
     org_name := "Acme Rivers And Lakes Foundation";
     org_slug := Some "acme rivers and lake";
     org_airbyte_workspace_id := Some "ws-acme rivers and lake" |}.

Definition an_org : Org :=
  {| org_id := Some 1; org_name := "Acme"; org_slug := Some "acme";
     org_airbyte_workspace_id := None |}.

Definition a_request : Request :=
  {| request_orguser :=
       {| orguser_id := Some 1;
          orguser_user := {| user_id := 7; user_email := "a@example.org" |};
          orguser_org := None;
          orguser_role := ACCOUNT_MANAGER;
          orguser_email_verified := true |} |}.

Definition a_member_request : Request :=
  {| request_orguser :=
       {| orguser_id := Some 1;
          orguser_user := {| user_id := 7; user_email := "a@example.org" |};
          orguser_org := Some 1;
          orguser_role := PIPELINE_MANAGER;
          orguser_email_verified := true |} |}.

Definition one_org_world : World outside_state :=
  {| orgs := [an_org]; orgs_seq := 2;
     orgplans := []; orgplans_seq := 1;
     orgwarehouses := []; orgwarehouses_seq := 1;
     orgusers := [request_orguser a_member_request]; orgusers_seq := 2;
     userattributes := [];
     outside := {| airbyte_up := true; journal := [] |};
     log := [] |}.

Definition postgres_payload : OrgWarehouseSchema :=
  {| payload_wtype := "postgres";
     payload_name := "main";
     payload_destinationDefId := "def-1";
     payload_airbyteConfig :=
       list_to_map [("host", JStr "db"); ("port", JNum 5432);
                    ("username", JStr "u"); ("password", JStr "p");
                    ("database", JStr "d")] |}.

Definition redshift_payload : OrgWarehouseSchema :=
  {| payload_wtype := "redshift";
     payload_name := "main";
     payload_destinationDefId := "def-1";
     payload_airbyteConfig := ∅ |}.

End examples.

(** ** user_org_api.py: endpoints on users, invitations and terms *)
Module api_models.
Import models orm.

(** Modelled from the sources' use of the schemas and models of
    [ddpui.models.org_user] and [ddpui.models.orgtnc], whose definitions
    are not part of the sources.  [update_fields] and [invitation_fields]
    stand for the attributes no endpoint below reads. *)
Record OrgUserUpdate : Type := {
  toupdate_email : string;
  update_role : option string;
  update_fields : json
}.

Record Invitation : Type := {
  invitation_pk : nat;
  invitation_fields : json
}.

Record OrgTnC : Type := {
  tnc_id : option nat;
  tnc_org : option nat;
  tnc_accepted_by : option nat;
  tnc_accepted_on : string
}.

(** The tables of those models. *)
Record Tables : Type := {
  invitations : list Invitation;
  orgtncs : list OrgTnC;
  orgtncs_seq : nat
}.

(** Django's conversion of a lookup value for an integer column,
    [int(value)]: [None] stands for the [ValueError] it raises on a value
    that is no number. *)
Class Conversions : Type := {
  int_of_str : string -> option Z
}.

(** [orguserfunctions.update_orguser] and the clock read by
    [datetime.now()], neither part of the sources. *)
Class Helpers {C : Collaborators} : Type := {
  OrgUserResponse : Type;
  update_orguser :
    OrgUser -> OrgUserUpdate -> M (World Outside) OrgUserResponse;
  datetime_now : Outside -> string
}.

End api_models.

Module user_org_api_users.
Import models orm api_models.
Section Api.
Context {C : Collaborators} {helpers : Helpers} {conversions : Conversions}.
#[local] Abbreviation World := (models.World Outside).

(** [role == other] on [OrgUserRole]. *)
Definition role_eqb (role other : OrgUserRole) : bool :=
  match role, other with
  | ACCOUNT_MANAGER, ACCOUNT_MANAGER => true
  | PIPELINE_MANAGER, PIPELINE_MANAGER => true
  | other_role n, other_role m => Nat.eqb n m
  | _, _ => false
  end.

(** [payload.role = None] *)
Definition OrgUserUpdate_set_role (value : option string)
    (payload : OrgUserUpdate) : OrgUserUpdate :=
  {| toupdate_email := toupdate_email payload;
     update_role := value;
     update_fields := update_fields payload |}.

Definition put_organization_user_self (request : Request)
    (payload : OrgUserUpdate) : M World OrgUserResponse :=
  let orguser := request_orguser request in
  let payload := OrgUserUpdate_set_role None payload in
  update_orguser orguser payload.

Definition put_organization_user (request : Request) (payload : OrgUserUpdate)
  : M World OrgUserResponse := fun w =>
  let requestor_orguser := request_orguser request in
  if negb (existsb (role_eqb (orguser_role requestor_orguser))
                   [ACCOUNT_MANAGER; PIPELINE_MANAGER])
  then (Raised (HttpError 400 "not authorized to update another user"), w)
  else
    let orguser :=
      first (List.filter
               (fun row =>
                  String.eqb (user_email (orguser_user row))
                             (toupdate_email payload)
                  && bool_decide (orguser_org row
                                  = orguser_org (request_orguser request)))
               (orgusers w)) in
    match orguser with
    | None =>
        (Raised (HttpError 400
                   "could not find user having this email address in this org"), w)
    | Some orguser => update_orguser orguser payload w
    end.

(** [invitation.delete()] *)
Definition Invitation_delete (invitation : Invitation) (t : Tables) : Tables :=
  {| invitations :=
       List.filter
         (fun row => negb (Nat.eqb (invitation_pk row) (invitation_pk invitation)))
         (invitations t);
     orgtncs := orgtncs t;
     orgtncs_seq := orgtncs_seq t |}.

(** [invitation_id] is a path parameter without annotation and arrives as
    text; [filter(id=invitation_id)] converts it. *)
Definition delete_invitation (request : Request) (invitation_id : string)
  : M Tables json := fun t =>
  let orguser := request_orguser request in
  match orguser_org orguser with
  | None => (Raised (HttpError 400 "create an organization first"), t)
  | Some _ =>
      match int_of_str invitation_id with
      | None =>
          (Raised (ValueError ("Field 'id' expected a number but got '"
                               ++ invitation_id ++ "'.")), t)
      | Some id =>
          let invitation :=
            first (List.filter
                     (fun row => Z.eqb (Z.of_nat (invitation_pk row)) id)
                     (invitations t)) in
          let t :=
            match invitation with
            | Some invitation => Invitation_delete invitation t
            | None => t
            end in
          (Returned (JObj [("success", JNum 1)]), t)
      end
  end.

Definition post_organization_accept_tnc (request : Request)
  : M (World * Tables) json := fun '(w, t) =>
  let orguser := request_orguser request in
  match orguser_org orguser with
  | None => (Raised (HttpError 400 "create an organization first"), (w, t))
  | Some org =>
      let userattributes :=
        first (List.filter
                 (fun row => Nat.eqb (attributes_user row)
                                     (user_id (orguser_user orguser)))
                 (models.userattributes w)) in
      if match userattributes with
         | Some attributes => is_consultant attributes
         | None => false
         end
      then (Raised (HttpError 400 "user cannot accept tnc"), (w, t))
      else if existsb (fun row => bool_decide (tnc_org row = Some org)) (orgtncs t)
      then (Raised (HttpError 400 "tnc already accepted"), (w, t))
      else
        let row :=
          {| tnc_id := Some (orgtncs_seq t);
             tnc_org := Some org;
             tnc_accepted_by := orguser_id orguser;
             tnc_accepted_on := datetime_now (outside w) |} in
        (Returned (JObj [("success", JNum 1)]),
         (w, {| invitations := invitations t;
                orgtncs := orgtncs t ++ [row];
                orgtncs_seq := S (orgtncs_seq t) |}))
  end.

End Api.
End user_org_api_users.

(** ** An instance over its lifetime: method calls through its class *)
Module lifetime.
Import insight_interface.
Section Calls.
Context `{Imports}.











End Calls.
End lifetime.

(** ** Further statements about the calls the endpoints make *)
Module api_contracts.
Import models orm contracts.
Section Collaborators.
Context `{Collaborators}.

(** The keys of [airbyteConfig] that the credentials of a warehouse type
    are read from, in the order the source reads them. *)
Definition credential_keys (wtype : string) : list string :=
  if String.eqb wtype "postgres"
  then ["host"; "port"; "username"; "password"; "database"]
  else if String.eqb wtype "bigquery" then ["credentials_json"]
  else if String.eqb wtype "snowflake"
  then ["host"; "role"; "warehouse"; "database"; "schema"; "username";
        "credentials"]
  else [].

(** The call to [setup_airbyte_workspace_v1] that [post_organization_v1]
    makes once the new org is saved and the creation logged. *)
Definition v1_setup_call (request : Request) (payload : OrgSchema)
    (w : World Outside)
  : outcome AirbyteWorkspace * (Org * World Outside) :=
  let org := fst (saved_org (schema_name payload) w) in
  setup_airbyte_workspace_v1 (org_slug org) org
    (snd (logger_info (user_email (orguser_user (request_orguser request))
                       ++ " created new org " ++ org_name org)
                      (snd (saved_org (schema_name payload) w)))).

(** The requestor may create orgs: the first attributes row of the user
    says so. *)
Definition may_create_orgs (request : Request) (w : World Outside) : Prop :=
  exists attributes,
    first (List.filter
             (fun row => Nat.eqb (attributes_user row)
                                 (user_id (orguser_user (request_orguser request))))
             (userattributes w)) = Some attributes
    /\ can_create_orgs attributes = true.

(** [org] has a key and the [Org] table has a row under it. *)
Definition org_is_stored (org : Org) (w : World Outside) : Prop :=
  exists k, org_id org = Some k
            /\ exists row, row ∈ orgs w /\ org_id row = Some k.

(** The features of a plan as the [if]/[elif] chain of [create_orgPlan]
    assigns them from the payload. *)
Definition features_follow_payload (payload : CreateOrgSchema)
    (features : json) : Prop :=
  (base_plan payload = "Free Trial" -> features = FREE_TRIAL)
  /\ (base_plan payload = "Internal" -> features = DALGO_WITH_SUPERSET)
  /\ (base_plan payload = "Dalgo" -> superset_included payload = true ->
      features = DALGO_WITH_SUPERSET)
  /\ (base_plan payload = "Dalgo" -> superset_included payload = false ->
      features = DALGO)
  /\ (base_plan payload <> "Free Trial" -> base_plan payload <> "Internal" ->
      base_plan payload <> "Dalgo" -> features = JObj []).

(** The next key of the [Org] table is not in use. *)
Definition next_org_key_unused (w : World Outside) : Prop :=
  forall row, row ∈ orgs w -> org_id row <> Some (orgs_seq w).

End Collaborators.
End api_contracts.

Module more_examples.
Import models orm api_models.

Definition helpers : Helpers (C := examples.collaborators) :=
  {| OrgUserResponse := string;
     update_orguser := fun orguser payload w =>
       (Returned (user_email (orguser_user orguser)), w);
     datetime_now := fun _ => "2024-11-19T07:29:00" |}.

(** Collaborators whose task queue is down: queueing the connector task
    raises, everything else is as in [examples.collaborators]. *)
Definition queue_down : Collaborators :=
  {| Outside := examples.outside_state;
     slugify := lower;
     AIRBYTE_CUSTOM_SOURCES := [("kobo", JStr "kobo-def")];
     FREE_TRIAL := JObj [];
     DALGO := JObj [];
     DALGO_WITH_SUPERSET := JObj [];
     json_loads := fun s => Returned (JStr s);
     setup_airbyte_workspace_v1 := examples.setup_workspace;
     add_custom_connectors_to_workspace_delay :=
       fun _ _ o => (Raised (Exception "broker is not reachable"), o);
     create_destination :=
       fun _ _ _ _ o => (Raised (Exception "not used"), o);
     save_warehouse_credentials :=
       fun _ _ o => (Raised (Exception "not used"), o) |}.



(** Plain decimal text to a number; anything else is refused. *)
Fixpoint digits_to_Z (acc : Z) (s : string) : option Z :=
  match s with
  | EmptyString => Some acc
  | String c s' =>
      let n := nat_of_ascii c in
      if (48 <=? n)%nat && (n <=? 57)%nat
      then digits_to_Z (acc * 10 + Z.of_nat (n - 48)) s'
      else None
  end.

Definition conversions : Conversions :=
  {| int_of_str := fun s =>
       match s with
       | EmptyString => None
       | _ => digits_to_Z 0 s
       end |}.

Definition acme_shouting : CreateOrgSchema :=
  {| name := "ACME";
     base_plan := "Free Trial";
     can_upgrade_plan := false;
     subscription_duration := "Monthly";
     superset_included := false;
     start_date := None;
     end_date := None |}.

(** A postgres payload whose configuration lacks the password. *)
Definition postgres_no_password : OrgWarehouseSchema :=
  {| payload_wtype := "postgres";
     payload_name := "main";
     payload_destinationDefId := "def-1";
     payload_airbyteConfig :=
       list_to_map [("host", JStr "db"); ("port", JNum 5432);
                    ("username", JStr "u"); ("database", JStr "d")] |}.

Definition creator_world (up : bool) : World examples.outside_state :=
  {| orgs := [examples.an_org]; orgs_seq := 2;
     orgplans := []; orgplans_seq := 1;
     orgwarehouses := []; orgwarehouses_seq := 1;
     orgusers := [request_orguser examples.a_member_request]; orgusers_seq := 2;
     userattributes :=
       [{| attributes_user := 7; can_create_orgs := true; is_consultant := false |}];
     outside := {| examples.airbyte_up := up; examples.journal := [] |};
     log := [] |}.

Definition rivers : OrgSchema :=
  {| schema_name := "Rivers"; schema_airbyte_workspace_id := None;
     schema_slug := None |}.

Definition a_viewer_request : Request :=
  {| request_orguser :=
       {| orguser_id := Some 2;
          orguser_user := {| user_id := 8; user_email := "v@example.org" |};
          orguser_org := Some 1;
          orguser_role := other_role 1;
          orguser_email_verified := true |} |}.

Definition an_update : OrgUserUpdate :=
  {| toupdate_email := "a@example.org"; update_role := Some "account-manager";
     update_fields := JNull |}.

Definition some_tables : Tables :=
  {| invitations :=
       [{| invitation_pk := 3; invitation_fields := JNull |};
        {| invitation_pk := 4; invitation_fields := JNull |}];
     orgtncs := [];
     orgtncs_seq := 1 |}.

End more_examples.

(* ===================================================================== *)
(** * Part II.  Properties                                               *)
(* ===================================================================== *)

(** ** insight_interface.py *)
Module insight_facts.
Import insight_interface contracts lifetime.
Section Facts.
Context `{Imports}.

(** C1 (as amended): [ColInsight.__init__] consults no support set.  For
    every [wtype] it returns an instance that stores the five arguments
    unchanged next to a new builder; it never raises. *)
Theorem ColInsight_init_accepts_every_wtype :
  forall column_name db_table db_schema filter wtype,
    ColInsight.__init__ column_name db_table db_schema filter wtype
    = Returned {| ColInsight.column_name := column_name;
                  ColInsight.builder := AggQueryBuilder_new;
                  ColInsight.db_table := db_table;
                  ColInsight.db_schema := db_schema;
                  ColInsight.filter := filter;
                  ColInsight.wtype := wtype |}.
Proof. reflexivity. Qed.

(** C2: whatever [wtype] the caller passes to
    [DataTypeColInsights.__init__], [None] and the other warehouse types
    included, construction returns an instance whose [wtype] is
    [WarehouseType.POSTGRES]. *)
Theorem DataTypeColInsights_wtype_is_postgres :
  forall column_name db_table db_schema filter wtype,
    exists self,
      DataTypeColInsights.__init__ column_name db_table db_schema filter wtype
      = Returned self
      /\ DataTypeColInsights.wtype self = WEnum POSTGRES.
Proof. intros. eexists. split; reflexivity. Qed.

(** The bodies that the two classes define themselves, [chart_type] and
    the abstract [pass] bodies, change none of [column_name], [db_table],
    [db_schema], [filter] and [wtype]. *)
Lemma methods_keep_identity_fields :
  (forall self : ColInsight.t,
      ColInsight.identity (snd (ColInsight.generate_sql self))
      = ColInsight.identity self)
  /\ (forall (self : ColInsight.t) result,
      ColInsight.identity (snd (ColInsight.parse_results self result))
      = ColInsight.identity self)
  /\ (forall self : ColInsight.t,
      ColInsight.identity (snd (ColInsight.chart_type self))
      = ColInsight.identity self)
  /\ (forall self : DataTypeColInsights.t,
      DataTypeColInsights.identity (snd (DataTypeColInsights.generate_sqls self))
      = DataTypeColInsights.identity self)
  /\ (forall (self : DataTypeColInsights.t) results,
      DataTypeColInsights.identity
        (snd (DataTypeColInsights.merge_output self results))
      = DataTypeColInsights.identity self)
  /\ (forall self : DataTypeColInsights.t,
      DataTypeColInsights.identity (snd (DataTypeColInsights.get_col_type self))
      = DataTypeColInsights.identity self).
Proof. repeat split. Qed.




(** C6: a plugin class that does not override [chart_type] answers
    [chart_type()] with [None], and the call leaves the instance as it
    was. *)
Theorem inherited_chart_type_is_None :
  forall k : ColInsight.subclass,
    ColInsight.sub_chart_type k = None ->
    forall self, ColInsight.resolve_chart_type k self = (Returned None, self).
Proof.
  intros k Hk self. unfold ColInsight.resolve_chart_type.
  rewrite Hk. reflexivity.
Qed.

End Facts.

(** C1, counterexample: a plugin class that supports Postgres only is
    constructed with BIGQUERY; the constructor returns an instance instead
    of raising [ConstructionError]. *)
Lemma ColInsight_init_unsupported_wtype_returns :
  examples.postgres_only BIGQUERY = false
  /\ (exists self,
        ColInsight.__init__ (H := examples.imports)
          "amount" "orders" "public" None (WEnum BIGQUERY) = Returned self)
  /\ ~ unsupported_dialect_guard (H := examples.imports) examples.postgres_only.
Proof.
  split; [reflexivity |]. split.
  - eexists. reflexivity.
  - intros Hguard.
    specialize (Hguard "amount" "orders" "public" None BIGQUERY eq_refl).
    discriminate Hguard.
Qed.



Lemma inherited_chart_type_is_None_witness :
  ColInsight.sub_chart_type examples.plain_subclass = None
  /\ forall self,
       ColInsight.resolve_chart_type examples.plain_subclass self
       = (Returned None, self).
Proof.
  split; [reflexivity |].
  apply (inherited_chart_type_is_None (H := examples.imports)
           examples.plain_subclass).
  reflexivity.
Defined.

End insight_facts.

(** ** Concrete coordinators *)
Module coordinator_facts.
Import insight_interface.
Section Facts.
Context `{Imports} {InsightValue : Type}.

(** One query per plugin, when every plugin produces its query. *)
Lemma mapM_outcome_length {A B} (f : A -> outcome B) (l : list A) (k : list B) :
  mapM f l = Returned k -> length k = length l.
Proof.
  revert k. induction l as [| x l IH]; intros k Hk; simpl in Hk.
  - injection Hk as <-. reflexivity.
  - destruct (f x) as [y | e]; simpl in Hk; [| discriminate].
    destruct (mapM f l) as [k' | e]; simpl in Hk; [| discriminate].
    injection Hk as <-. simpl. f_equal. apply IH. reflexivity.
Qed.

Lemma generate_sqls_length (self : coordinator.t (InsightValue := InsightValue))
    (sqls : list Select) :
  coordinator.generate_sqls self = Returned sqls ->
  length sqls = length (coordinator.plugins self).
Proof. apply mapM_outcome_length. Qed.

(** C4: when [generate_sqls] of a coordinator returns [sqls], calling
    [merge_output] on the same instance with a list of result sets whose
    length differs from that of [sqls] raises [MergeLengthMismatchError];
    nothing is merged. *)
Theorem merge_output_length_guard :
  forall (self : coordinator.t (InsightValue := InsightValue))
         (results : list Rows) (sqls : list Select),
    coordinator.generate_sqls self = Returned sqls ->
    length results <> length sqls ->
    coordinator.merge_output self results = Raised MergeLengthMismatchError.
Proof.
  intros self results sqls Hsqls Hlen. unfold coordinator.merge_output.
  rewrite Hsqls. simpl. rewrite bool_decide_eq_false_2 by exact Hlen.
  reflexivity.
Qed.

End Facts.

Lemma merge_output_length_guard_witness :
  coordinator.generate_sqls examples.one_plugin
  = Returned [("SELECT COUNT(*)" : @Select examples.imports)]
  /\ coordinator.merge_output examples.one_plugin [] = Raised MergeLengthMismatchError
  /\ coordinator.merge_output examples.one_plugin [[]; [∅]]
     = Raised MergeLengthMismatchError.
Proof.
  split; [reflexivity |]. split.
  - apply (merge_output_length_guard (H := examples.imports) examples.one_plugin []
             [("SELECT COUNT(*)" : @Select examples.imports)]);
      [reflexivity | simpl; lia].
  - apply (merge_output_length_guard (H := examples.imports) examples.one_plugin
             [[]; [∅]] [("SELECT COUNT(*)" : @Select examples.imports)]);
      [reflexivity | simpl; lia].
Defined.

(** With one result set for the one plugin the merge goes through. *)
Example merge_output_one_plugin :
  coordinator.merge_output examples.one_plugin [[]]
  = Returned {[ "countNull" := 0%Z ]}.
Proof. vm_compute. reflexivity. Qed.

End coordinator_facts.

(** ** Lists, strings and tables *)
Module table_facts.
Import models orm.

Lemma slice_to_length (n : nat) (s : string) :
  String.length (slice_to n s) <= n.
Proof.
  unfold slice_to. revert s.
  induction n as [| n IH]; intros [| c s]; simpl; try lia.
  specialize (IH s). lia.
Qed.

Lemma first_filter_None {A} (P : A -> bool) (rows : list A) :
  first (List.filter P rows) = None <-> forall row, row ∈ rows -> P row = false.
Proof.
  unfold first. induction rows as [| x rows IH]; simpl.
  - split; [| reflexivity]. intros _ row Hrow. inversion Hrow.
  - destruct (P x) eqn:HPx; simpl.
    + split; [discriminate |]. intros Hall.
      rewrite (Hall x) in HPx by (left). discriminate.
    + rewrite IH. split.
      * intros Hall row Hrow. apply elem_of_cons in Hrow as [-> | Hrow]; auto.
      * intros Hall row Hrow. apply Hall. right. exact Hrow.
Qed.

Lemma first_filter_is_Some {A} (P : A -> bool) (rows : list A) (row : A) :
  row ∈ rows -> P row = true -> is_Some (first (List.filter P rows)).
Proof.
  intros Hin HP. destruct (first (List.filter P rows)) eqn:Hfirst; [eauto |].
  rewrite first_filter_None in Hfirst. rewrite (Hfirst row Hin) in HP.
  discriminate.
Qed.

Lemma elem_of_filter {A} (P : A -> bool) (rows : list A) (row : A) :
  row ∈ List.filter P rows <-> row ∈ rows /\ P row = true.
Proof. rewrite !list_elem_of_In. apply filter_In. Qed.

Lemma not_in_warehouse_types (wtype : string) :
  wtype ∉ ["postgres"; "bigquery"; "snowflake"] ->
  existsb (String.eqb wtype) ["postgres"; "bigquery"; "snowflake"] = false.
Proof.
  intros Hnot. simpl.
  destruct (String.eqb_spec wtype "postgres") as [-> | _];
    [exfalso; apply Hnot; set_solver |].
  destruct (String.eqb_spec wtype "bigquery") as [-> | _];
    [exfalso; apply Hnot; set_solver |].
  destruct (String.eqb_spec wtype "snowflake") as [-> | _];
    [exfalso; apply Hnot; set_solver |].
  reflexivity.
Qed.

Lemma name__iexact_same (row : Org) : name__iexact (org_name row) row = true.
Proof. unfold name__iexact. apply String.eqb_refl. Qed.

End table_facts.

(** ** orgfunctions.py: plans *)
Module orgplan_facts.
Import models orm orgfunctions api_contracts table_facts.
Section Facts.
Context `{Collaborators}.

Lemma stored_org_found (org : Org) (w : World Outside) :
  org_is_stored org w <->
  exists k, org_id org = Some k /\ existsb (Org_has_id k) (orgs w) = true.
Proof.
  unfold org_is_stored. split; intros (k & Hk & Hrow); exists k;
    (split; [exact Hk |]).
  - destruct Hrow as (row & Hin & Hid). apply existsb_exists. exists row.
    split; [apply list_elem_of_In; exact Hin |].
    apply bool_decide_eq_true_2. exact Hid.
  - apply existsb_exists in Hrow as (row & Hin & Hid). exists row.
    split; [apply list_elem_of_In; exact Hin |].
    apply bool_decide_eq_true_1 in Hid. exact Hid.
Qed.

Lemma chain_follows_payload (payload : CreateOrgSchema) :
  features_follow_payload payload
    (if String.eqb (base_plan payload) "Free Trial" then FREE_TRIAL
     else if String.eqb (base_plan payload) "Internal" then DALGO_WITH_SUPERSET
     else if String.eqb (base_plan payload) "Dalgo" && superset_included payload
     then DALGO_WITH_SUPERSET
     else if String.eqb (base_plan payload) "Dalgo"
             && negb (superset_included payload)
     then DALGO
     else JObj []).
Proof.
  unfold features_follow_payload.
  destruct (String.eqb_spec (base_plan payload) "Free Trial") as [Hft | Hft];
  destruct (String.eqb_spec (base_plan payload) "Internal") as [Hin | Hin];
  destruct (String.eqb_spec (base_plan payload) "Dalgo") as [Hd | Hd];
  destruct (superset_included payload); simpl;
  repeat split; intros; congruence.
Qed.

(** C10: [create_orgPlan] returns [(None, "client org's plan already
    exists")] and leaves every table as it was when the org already has a
    plan.  Otherwise, for an org that is a row of the [Org] table, it
    appends exactly one plan for the org; and whenever it returns a plan,
    the plan's features are [FREE_TRIAL] for "Free Trial",
    [DALGO_WITH_SUPERSET] for "Internal" and for "Dalgo" with
    [superset_included], [DALGO] for "Dalgo" without it, and the empty
    mapping for every other base plan.  When the insert is refused, for an
    org that is no row of the [Org] table, the call raises and creates
    nothing. *)
Theorem create_orgPlan_features :
  forall (payload : CreateOrgSchema) (org : Org) (w : World Outside),
    ((exists row, row ∈ orgplans w /\ plan_org row = org_id org) ->
       create_orgPlan payload org w
       = (Returned (None, Some "client org's plan already exists"), w))
    /\ ((forall row, row ∈ orgplans w -> plan_org row <> org_id org) ->
        org_is_stored org w ->
        exists plan,
          create_orgPlan payload org w
          = (Returned (Some plan, None),
             set_orgplans (orgplans w ++ [plan]) (S (orgplans_seq w)) w)
          /\ plan_org plan = org_id org
          /\ features_follow_payload payload (plan_features plan))
    /\ (forall plan e w',
          create_orgPlan payload org w = (Returned (Some plan, e), w') ->
          e = None /\ features_follow_payload payload (plan_features plan))
    /\ (forall err w',
          create_orgPlan payload org w = (Raised err, w') ->
          w' = w /\ ~ org_is_stored org w).
Proof.
  intros payload org w. unfold create_orgPlan. split; [| split; [| split]].
  - intros (row & Hrow & Horg).
    destruct (first_filter_is_Some
                (fun row => bool_decide (plan_org row = org_id org))
                (orgplans w) row Hrow) as [found ->].
    + apply bool_decide_eq_true_2. exact Horg.
    + reflexivity.
  - intros Hnone Hstored.
    assert (Hfirst :
      first (List.filter (fun row => bool_decide (plan_org row = org_id org))
                         (orgplans w)) = None).
    { apply first_filter_None. intros row Hrow.
      apply bool_decide_eq_false_2. apply Hnone. exact Hrow. }
    rewrite Hfirst. apply stored_org_found in Hstored as (k & Hk & Hfound).
    unfold mbind, M_bind, OrgPlans_create. rewrite Hk, Hfound. simpl.
    eexists. split; [reflexivity |]. simpl. split; [reflexivity |].
    apply chain_follows_payload.
  - intros plan e w'. destruct (first _) as [found |]; [discriminate |].
    unfold mbind, M_bind, OrgPlans_create.
    destruct (org_id org) as [k |]; [| discriminate].
    destruct (existsb (Org_has_id k) (orgs w)); [| discriminate].
    simpl. intros Hcall. inversion Hcall. subst plan e w'.
    split; [reflexivity |]. simpl. apply chain_follows_payload.
  - intros err w'. destruct (first _) as [found |]; [discriminate |].
    unfold mbind, M_bind, OrgPlans_create. rewrite stored_org_found.
    destruct (org_id org) as [k |].
    + destruct (existsb (Org_has_id k) (orgs w)) eqn:Hfound; [discriminate |].
      simpl. intros Hcall. inversion Hcall. split; [reflexivity |].
      intros (k' & Hk' & Hfound'). injection Hk' as <-. congruence.
    + simpl. intros Hcall. inversion Hcall. split; [reflexivity |].
      intros (k' & Hk' & _). discriminate Hk'.
Qed.

End Facts.

Lemma an_org_is_stored :
  org_is_stored (H := examples.collaborators) examples.an_org
    examples.one_org_world.
Proof.
  exists 1. split; [reflexivity |]. exists examples.an_org.
  split; [apply list_elem_of_singleton |]; reflexivity.
Qed.

Lemma create_orgPlan_features_witness :
  exists plan,
    create_orgPlan (H := examples.collaborators) examples.acme examples.an_org
      examples.one_org_world
    = (Returned (Some plan, None),
       set_orgplans [plan] 2 examples.one_org_world)
    /\ plan_features plan
       = JObj [("pipeline", JList [JStr "Ingest"; JStr "Transform"])].
Proof.
  destruct (create_orgPlan_features (H := examples.collaborators)
              examples.acme examples.an_org examples.one_org_world)
    as (_ & Hnew & _).
  destruct Hnew as (plan & Hcall & _ & _ & _ & _ & Hdalgo & _).
  - intros row Hrow. inversion Hrow.
  - exact an_org_is_stored.
  - exists plan. split; [exact Hcall |].
    apply Hdalgo; reflexivity.
Defined.

End orgplan_facts.

(** ** user_org_api.py: registering a warehouse *)
Module warehouse_facts.
Import models orm user_org_api table_facts.
Section Facts.
Context `{Collaborators}.

(** C7: registering a warehouse whose [wtype] is none of "postgres",
    "bigquery", "snowflake" raises [HttpError(400, "unrecognized warehouse
    type " + wtype)] and leaves the world as it was: no destination has
    been asked of Airbyte and no [OrgWarehouse] row has been written. *)
Theorem post_organization_warehouse_rejects_unknown_wtype :
  forall (request : Request) (payload : OrgWarehouseSchema) (w : World Outside),
    payload_wtype payload ∉ ["postgres"; "bigquery"; "snowflake"] ->
    post_organization_warehouse request payload w
    = (Raised (HttpError 400
                 ("unrecognized warehouse type " ++ payload_wtype payload)), w).
Proof.
  intros request payload w Hnot. unfold post_organization_warehouse.
  rewrite (not_in_warehouse_types _ Hnot). reflexivity.
Qed.

End Facts.

Lemma post_organization_warehouse_rejects_unknown_wtype_witness :
  post_organization_warehouse (H := examples.collaborators)
    examples.a_request examples.redshift_payload (examples.empty_world true)
  = (Raised (HttpError 400 "unrecognized warehouse type redshift"),
     examples.empty_world true).
Proof.
  apply (post_organization_warehouse_rejects_unknown_wtype
           (H := examples.collaborators)).
  vm_compute. intros Hin.
  repeat (apply elem_of_cons in Hin as [Heq | Hin]; [discriminate Heq |]).
  inversion Hin.
Defined.

(** A recognised warehouse type goes on to create the destination, store
    the credentials and write the row. *)
Example post_organization_warehouse_postgres :
  let '(r, w) :=
    post_organization_warehouse (H := examples.collaborators)
      examples.a_member_request examples.postgres_payload
      examples.one_org_world in
  r = Returned (JObj [("success", JNum 1)])
  /\ orgwarehouses w
     = [{| warehouse_id := Some 1; warehouse_org := Some 1;
           warehouse_name := "main"; warehouse_wtype := "postgres";
           warehouse_credentials := "secret-main";
           warehouse_airbyte_destination_id := JStr "dest-postgres-warehouse" |}]
  /\ examples.journal (outside w)
     = ["destination postgres-warehouse"; "secret main"].
Proof. vm_compute. repeat split. Qed.

End warehouse_facts.

(** ** orgfunctions.py and user_org_api.py: creating an org *)
Module org_facts.
Import models orm orgfunctions user_org_api contracts table_facts.
Section Facts.
Context `{Collaborators}.

Lemma saved_org_eq (n : string) (w : World Outside) :
  saved_org n w
  = (Org_set_id (orgs_seq w) (Org_set_slug (slice_to 20 (slugify n)) (Org_new n)),
     set_orgs
       (orgs w ++ [Org_set_id (orgs_seq w)
                     (Org_set_slug (slice_to 20 (slugify n)) (Org_new n))])
       (S (orgs_seq w)) w).
Proof. reflexivity. Qed.

(** When no org has the name yet, [create_organization] saves the new org
    and continues with the [try:] block. *)
Lemma create_organization_new (payload : CreateOrgSchema) (w : World Outside) :
  (forall row, row ∈ orgs w -> name__iexact (name payload) row = false) ->
  create_organization payload w
  = match create_organization_try (fst (saved_org (name payload) w))
                                  (snd (saved_org (name payload) w)) with
    | (Raised err, (org, w)) =>
        (_ ← logger_error ("could not create airbyte workspace: " ++ str err);
         _ ← Org_delete org;
         mret (None, Some "could not create airbyte workspace")) w
    | (Returned _, (org, w)) =>
        (org ← Org_refresh_from_db org; mret (Some org, None)) w
    end.
Proof.
  intros Hfree. unfold create_organization.
  apply first_filter_None in Hfree. rewrite Hfree. reflexivity.
Qed.

(** The [except] branch: once the [try:] block has raised and the object
    still has its key, the org's rows are removed and the error pair is
    returned. *)
Lemma except_branch (org : Org) (k : nat) (w : World Outside) (err : exn) :
  org_id org = Some k ->
  exists w',
    (_ ← logger_error ("could not create airbyte workspace: " ++ str err);
     _ ← Org_delete org;
     mret (None, Some "could not create airbyte workspace")) w
    = (Returned ((None, Some "could not create airbyte workspace")
                 : option Org * option string), w')
    /\ orgs w' = List.filter (fun row => negb (Org_has_id k row)) (orgs w).
Proof.
  intros Hk. unfold mbind, M_bind, logger_error, Org_delete. simpl.
  rewrite Hk. eexists. split; reflexivity.
Qed.

Lemma removed_rows (k : nat) (rows : list Org) (row : Org) :
  row ∈ List.filter (fun row => negb (Org_has_id k row)) rows ->
  row ∈ rows /\ org_id row <> Some k.
Proof.
  intros Hrow. apply elem_of_filter in Hrow as [Hin Hid]. split; [exact Hin |].
  unfold Org_has_id in Hid. apply negb_true_iff in Hid.
  apply bool_decide_eq_false_1 in Hid. exact Hid.
Qed.

(** After the workspace helper has run on the org saved for [n], the
    object still has the key it was saved under. *)
Lemma key_after_setup (n : string) (w : World Outside) (w1' : World Outside)
    (r : outcome AirbyteWorkspace) (org2 : Org) (w2 : World Outside) :
  setup_keeps_to_its_org ->
  setup_airbyte_workspace_v1 (org_slug (fst (saved_org n w)))
    (fst (saved_org n w)) w1' = (r, (org2, w2)) ->
  org_id org2 = Some (orgs_seq w).
Proof.
  intros Hsetup Hcall. rewrite saved_org_eq in *. simpl in *.
  apply ((fun Hkey => Hsetup _ _ (orgs_seq w) _ _ _ _ Hkey Hcall) eq_refl).
Qed.

(** Rows of the [Org] table at that point: old rows, or rows under the new
    key with the new org's name and slug. *)
Lemma rows_after_setup (n : string) (w : World Outside) (w1' : World Outside)
    (r : outcome AirbyteWorkspace) (org2 : Org) (w2 : World Outside) (row : Org) :
  setup_keeps_to_its_org ->
  orgs w1' = orgs (snd (saved_org n w)) ->
  setup_airbyte_workspace_v1 (org_slug (fst (saved_org n w)))
    (fst (saved_org n w)) w1' = (r, (org2, w2)) ->
  row ∈ orgs w2 ->
  row ∈ orgs w
  \/ (org_id row = Some (orgs_seq w) /\ org_name row = n
      /\ org_slug row = Some (slice_to 20 (slugify n))).
Proof.
  intros Hsetup Hsame Hcall Hrow. rewrite saved_org_eq in *. simpl in *.
  destruct ((fun Hkey => Hsetup _ _ (orgs_seq w) _ _ _ _ Hkey Hcall) eq_refl)
    as [_ Hrows].
  destruct (Hrows row Hrow) as [Hbefore | (Hid & Hname & Hslug)].
  - rewrite Hsame in Hbefore.
    apply elem_of_app in Hbefore as [Hw | Hnew]; [left; exact Hw |].
    apply list_elem_of_singleton in Hnew. subst row. right.
    repeat split; reflexivity.
  - right. repeat split; assumption.
Qed.

(** Whatever makes the [try:] block raise, the helper or the queueing of
    the connector task, the new org is taken out again. *)
Lemma try_raises_rolls_back :
  setup_keeps_to_its_org ->
  forall (payload : CreateOrgSchema) (w : World Outside) (err : exn),
    (forall row, row ∈ orgs w -> name__iexact (name payload) row = false) ->
    fst (create_organization_try (fst (saved_org (name payload) w))
                                 (snd (saved_org (name payload) w))) = Raised err ->
    exists w',
      create_organization payload w
      = (Returned (None, Some "could not create airbyte workspace"), w')
      /\ (forall row, row ∈ orgs w' ->
            org_id row <> org_id (fst (saved_org (name payload) w)))
      /\ (forall row, row ∈ orgs w' -> row ∈ orgs w)
      /\ (forall row, row ∈ orgs w' -> org_name row <> name payload).
Proof.
  intros Hsetup payload w err Hfree Hraises.
  rewrite (create_organization_new payload w Hfree).
  unfold create_organization_try in *.
  destruct (setup_airbyte_workspace_v1 _ _ _) as [r [org2 w2]] eqn:Hcall.
  pose proof (key_after_setup _ _ _ _ _ _ Hsetup Hcall) as Hid.
  pose proof (fun x => (fun Hsame => rows_after_setup _ _ _ _ _ _ x Hsetup
                                      Hsame Hcall) eq_refl) as Hrows.
  assert (Hfinish : forall w3 : World Outside,
    orgs w3 = orgs w2 ->
    exists w',
      (_ ← logger_error ("could not create airbyte workspace: " ++ str err);
       _ ← Org_delete org2;
       mret (None, Some "could not create airbyte workspace")) w3
      = (Returned ((None, Some "could not create airbyte workspace")
                   : option Org * option string), w')
      /\ (forall row, row ∈ orgs w' ->
            org_id row <> org_id (fst (saved_org (name payload) w)))
      /\ (forall row, row ∈ orgs w' -> row ∈ orgs w)
      /\ (forall row, row ∈ orgs w' -> org_name row <> name payload)).
  { intros w3 Hsame.
    destruct (except_branch org2 _ w3 err Hid) as (w' & Hresult & Horgs).
    exists w'. split; [exact Hresult |].
    assert (Hold : forall row, row ∈ orgs w' ->
                     org_id row <> Some (orgs_seq w) /\ row ∈ orgs w).
    { intros row Hrow. rewrite Horgs, Hsame in Hrow.
      apply removed_rows in Hrow as [Hin Hne]. split; [exact Hne |].
      destruct (Hrows row Hin) as [Hbefore | (Hkey & _)];
        [exact Hbefore | contradiction]. }
    split; [| split].
    - intros row Hrow. apply Hold. exact Hrow.
    - intros row Hrow. apply Hold. exact Hrow.
    - intros row Hrow Hname.
      specialize (Hfree row (proj2 (Hold row Hrow))).
      rewrite <- Hname, name__iexact_same in Hfree. discriminate. }
  destruct r as [workspace | err'].
  - unfold call_outside in *.
    destruct (add_custom_connectors_to_workspace_delay _ _ _) as [r' o'].
    simpl in Hraises. subst r'. apply Hfinish. reflexivity.
  - simpl in Hraises. injection Hraises as ->. apply Hfinish. reflexivity.
Qed.

(** C8: if no org has the payload's name yet and the call to
    [setup_airbyte_workspace_v1] raises, then, for a workspace helper that
    keeps to the org it is given, [create_organization] returns
    [(None, "could not create airbyte workspace")], the row it had just
    saved is gone, the [Org] table holds nothing it did not hold before,
    and no org with that name is left. *)
Theorem create_organization_rolls_back :
  setup_keeps_to_its_org ->
  forall (payload : CreateOrgSchema) (w : World Outside) (err : exn),
    (forall row, row ∈ orgs w -> name__iexact (name payload) row = false) ->
    setup_raises payload w err ->
    exists w',
      create_organization payload w
      = (Returned (None, Some "could not create airbyte workspace"), w')
      /\ (forall row, row ∈ orgs w' ->
            org_id row <> org_id (fst (saved_org (name payload) w)))
      /\ (forall row, row ∈ orgs w' -> row ∈ orgs w)
      /\ (forall row, row ∈ orgs w' -> org_name row <> name payload).
Proof.
  intros Hsetup payload w err Hfree Hraises.
  apply (try_raises_rolls_back Hsetup payload w err Hfree).
  unfold setup_raises in Hraises. unfold create_organization_try.
  destruct (saved_org (name payload) w) as [org1 w1]. simpl in *.
  destruct (setup_airbyte_workspace_v1 (org_slug org1) org1 w1)
    as [r [org2 w2]].
  simpl in Hraises. subst r. reflexivity.
Qed.

Lemma refresh_keeps_world (org : Org) (w : World Outside) :
  snd ((org ← Org_refresh_from_db org;
        mret ((Some org, None) : option Org * option string)) w) = w.
Proof.
  unfold mbind, M_bind, Org_refresh_from_db.
  destruct (org_id org) as [k |]; [| reflexivity].
  destruct (first (List.filter (Org_has_id k) (orgs w))); reflexivity.
Qed.

Lemma OrgUser_save_keeps_orgs (orguser : OrgUser) (w : World Outside) :
  orgs (snd (OrgUser_save orguser w)) = orgs w.
Proof.
  unfold OrgUser_save. destruct (orguser_id orguser) as [k |]; [| reflexivity].
  destruct (existsb (OrgUser_has_id k) (orgusers w)); reflexivity.
Qed.

Lemma create_organization_rows (payload : CreateOrgSchema) (w : World Outside)
    (row : Org) :
  setup_keeps_to_its_org ->
  row ∈ orgs (snd (create_organization payload w)) ->
  row ∈ orgs w
  \/ (org_id row = Some (orgs_seq w) /\ org_name row = name payload
      /\ org_slug row = Some (slice_to 20 (slugify (name payload)))).
Proof.
  intros Hsetup.
  destruct (first (List.filter (name__iexact (name payload)) (orgs w)))
    as [found |] eqn:Hfirst.
  { unfold create_organization. rewrite Hfirst. simpl. auto. }
  rewrite (create_organization_new payload w)
    by (apply first_filter_None; exact Hfirst).
  unfold create_organization_try.
  destruct (setup_airbyte_workspace_v1 _ _ _) as [r [org2 w2]] eqn:Hcall.
  pose proof (key_after_setup _ _ _ _ _ _ Hsetup Hcall) as Hid.
  assert (Hvia : forall w' : World Outside,
            (forall x, x ∈ orgs w' -> x ∈ orgs w2) ->
            row ∈ orgs w' ->
            row ∈ orgs w
            \/ (org_id row = Some (orgs_seq w) /\ org_name row = name payload
                /\ org_slug row = Some (slice_to 20 (slugify (name payload))))).
  { intros w' Hsub Hrow.
    apply (rows_after_setup _ _ _ _ _ _ row Hsetup eq_refl Hcall).
    apply Hsub. exact Hrow. }
  destruct r as [workspace | err].
  - unfold call_outside.
    destruct (add_custom_connectors_to_workspace_delay _ _ _) as [r' o'].
    destruct r' as [[] | err].
    + rewrite refresh_keeps_world. apply Hvia. simpl. auto.
    + destruct (except_branch org2 _ (set_outside o' w2) err Hid)
        as (w' & -> & Horgs).
      apply Hvia. intros x Hx. simpl in Hx. rewrite Horgs in Hx.
      apply removed_rows in Hx as [Hx _]. exact Hx.
  - destruct (except_branch org2 _ w2 err Hid) as (w' & -> & Horgs).
    apply Hvia. intros x Hx. simpl in Hx. rewrite Horgs in Hx.
    apply removed_rows in Hx as [Hx _]. exact Hx.
Qed.

(** When the requestor may create orgs and no org has the name yet,
    [post_organization_v1] saves the new org, logs, and calls the
    workspace helper. *)
Lemma post_organization_v1_new (request : Request) (payload : OrgSchema)
    (w : World Outside) (attributes : UserAttributes) :
  first (List.filter
           (fun row => Nat.eqb (attributes_user row)
                               (user_id (orguser_user (request_orguser request))))
           (userattributes w)) = Some attributes ->
  can_create_orgs attributes = true ->
  first (List.filter (name__iexact (schema_name payload)) (orgs w)) = None ->
  post_organization_v1 request payload w
  = let org := fst (saved_org (schema_name payload) w) in
    let orguser := request_orguser request in
    match setup_airbyte_workspace_v1 (org_slug org) org
            (snd (logger_info (user_email (orguser_user orguser)
                               ++ " created new org " ++ org_name org)
                              (snd (saved_org (schema_name payload) w)))) with
    | (Raised error, (org, w)) =>
        (_ ← Org_delete org;
         raise (HttpError 400 "could not create airbyte workspace")) w
    | (Returned new_workspace, (org, w)) =>
        (_ ← match orguser_org orguser with
             | None => OrgUser_save (OrgUser_set_org org orguser)
             | Some _ =>
                 OrgUser_save
                   {| orguser_id := None;
                      orguser_user := orguser_user orguser;
                      orguser_org := org_id org;
                      orguser_role := ACCOUNT_MANAGER;
                      orguser_email_verified := true |}
             end;
         mret {| schema_name := org_name org;
                 schema_airbyte_workspace_id := Some (workspaceId new_workspace);
                 schema_slug := org_slug org |}) w
    end.
Proof.
  intros Hattributes Hcan Hfree. unfold post_organization_v1.
  rewrite Hattributes, Hcan, Hfree. reflexivity.
Qed.

Lemma post_organization_v1_rows (request : Request) (payload : OrgSchema)
    (w : World Outside) (row : Org) :
  setup_keeps_to_its_org ->
  row ∈ orgs (snd (post_organization_v1 request payload w)) ->
  row ∈ orgs w
  \/ (org_id row = Some (orgs_seq w) /\ org_name row = schema_name payload
      /\ org_slug row = Some (slice_to 20 (slugify (schema_name payload)))).
Proof.
  intros Hsetup.
  destruct (first (List.filter
                     (fun row => Nat.eqb (attributes_user row)
                        (user_id (orguser_user (request_orguser request))))
                     (userattributes w))) as [attributes |] eqn:Hattributes;
    [| unfold post_organization_v1; rewrite Hattributes; simpl; auto].
  destruct (can_create_orgs attributes) eqn:Hcan;
    [| unfold post_organization_v1; rewrite Hattributes, Hcan; simpl; auto].
  destruct (first (List.filter (name__iexact (schema_name payload)) (orgs w)))
    as [found |] eqn:Hfree;
    [unfold post_organization_v1; rewrite Hattributes, Hcan, Hfree; simpl; auto |].
  rewrite (post_organization_v1_new _ _ _ _ Hattributes Hcan Hfree).
  cbv zeta.
  destruct (setup_airbyte_workspace_v1 _ _ _) as [r [org2 w2]] eqn:Hcall.
  pose proof (key_after_setup _ _ _ _ _ _ Hsetup Hcall) as Hid.
  pose proof (fun x => (fun Hsame => rows_after_setup _ _ _ _ _ _ x Hsetup
                                      Hsame Hcall) eq_refl) as Hrows.
  destruct r as [new_workspace | error].
  - unfold mbind, M_bind.
    destruct (orguser_org (request_orguser request)).
    + match goal with
      | |- context [OrgUser_save ?u w2] =>
          pose proof (OrgUser_save_keeps_orgs u w2) as Hkeep;
          destruct (OrgUser_save u w2) as [[saved | e] w3]
      end; simpl in *; rewrite Hkeep; apply Hrows.
    + match goal with
      | |- context [OrgUser_save ?u w2] =>
          pose proof (OrgUser_save_keeps_orgs u w2) as Hkeep;
          destruct (OrgUser_save u w2) as [[saved | e] w3]
      end; simpl in *; rewrite Hkeep; apply Hrows.
  - unfold mbind, M_bind, Org_delete, raise. rewrite Hid. simpl.
    intros Hrow. apply removed_rows in Hrow as [Hrow _]. apply Hrows. exact Hrow.
Qed.

(** C9: every row that [create_organization] or [post_organization_v1]
    adds to the [Org] table carries the name from the payload and the slug
    [slugify(name)[:20]], which is at most 20 characters long, for a
    workspace helper that keeps to the org it is given. *)
Theorem created_org_slug :
  setup_keeps_to_its_org ->
  (forall (payload : CreateOrgSchema) (w : World Outside) (row : Org),
      row ∈ orgs (snd (create_organization payload w)) ->
      row ∈ orgs w
      \/ (exists slug,
            org_name row = name payload
            /\ org_slug row = Some slug
            /\ slug = slice_to 20 (slugify (org_name row))
            /\ String.length slug <= 20))
  /\ (forall (request : Request) (payload : OrgSchema) (w : World Outside)
             (row : Org),
      row ∈ orgs (snd (post_organization_v1 request payload w)) ->
      row ∈ orgs w
      \/ (exists slug,
            org_name row = schema_name payload
            /\ org_slug row = Some slug
            /\ slug = slice_to 20 (slugify (org_name row))
            /\ String.length slug <= 20)).
Proof.
  intros Hsetup. split.
  - intros payload w row Hrow.
    destruct (create_organization_rows payload w row Hsetup Hrow)
      as [Hold | (_ & Hname & Hslug)]; [left; exact Hold | right].
    eexists. split; [exact Hname |]. split; [exact Hslug |].
    rewrite Hname. split; [reflexivity |]. apply slice_to_length.
  - intros request payload w row Hrow.
    destruct (post_organization_v1_rows request payload w row Hsetup Hrow)
      as [Hold | (_ & Hname & Hslug)]; [left; exact Hold | right].
    eexists. split; [exact Hname |]. split; [exact Hslug |].
    rewrite Hname. split; [reflexivity |]. apply slice_to_length.
Qed.

End Facts.

(** The workspace helper of the examples keeps to the org it is given. *)
Lemma setup_workspace_keeps_to_its_org :
  setup_keeps_to_its_org (H := examples.collaborators).
Proof.
  intros slug org k w r org' w' Hk Hcall.
  change (examples.setup_workspace slug org w = (r, (org', w'))) in Hcall.
  unfold examples.setup_workspace in Hcall.
  match type of Hcall with
  | (if ?up then _ else _) = _ => destruct up
  end.
  - unfold Org_save in Hcall. simpl in Hcall. rewrite Hk in Hcall.
    match type of Hcall with
    | (_, if ?found then _ else _) = _ => destruct found
    end;
      inversion Hcall; subst r org' w'; clear Hcall; simpl;
      (split; [reflexivity |]); intros row Hrow.
    + apply list_elem_of_In, in_map_iff in Hrow as (row0 & Heq & Hin0).
      destruct (Org_has_id k row0); subst row.
      * right. simpl. auto.
      * left. apply list_elem_of_In. exact Hin0.
    + apply elem_of_app in Hrow as [Hrow | Hrow]; [left; exact Hrow |].
      apply list_elem_of_singleton in Hrow. subst row. right. simpl. auto.
  - inversion Hcall; subst r org' w'; clear Hcall.
    split; [exact Hk |]. intros row Hrow. left. exact Hrow.
Qed.

(** With Airbyte up the org is created, gets its workspace and is
    returned as reloaded from its row. *)
Example create_organization_acme :
  let '(r, w) :=
    create_organization (H := examples.collaborators) examples.acme
      (examples.empty_world true) in
  r = Returned
        (Some {| org_id := Some 1;
                 org_name := "Acme Rivers And Lakes Foundation";
                 org_slug := Some "acme rivers and lake";
                 org_airbyte_workspace_id := Some "ws-acme rivers and lake" |},
         None)
  /\ length (orgs w) = 1
  /\ examples.journal (outside w) = ["connectors ws-acme rivers and lake"].
Proof. vm_compute. repeat split. Qed.

(** With Airbyte down the table is empty again and the error is logged. *)
Example create_organization_acme_airbyte_down :
  create_organization (H := examples.collaborators) examples.acme
    (examples.empty_world false)
  = (Returned (None, Some "could not create airbyte workspace"),
     set_log ["ERROR could not create airbyte workspace: airbyte is not reachable"]
       (set_orgs [] 2 (examples.empty_world false))).
Proof. vm_compute. reflexivity. Qed.

Lemma create_organization_rolls_back_witness :
  exists w',
    create_organization (H := examples.collaborators) examples.acme
      (examples.empty_world false)
    = (Returned (None, Some "could not create airbyte workspace"), w')
    /\ (forall row, row ∈ orgs w' -> org_id row <> Some 1)
    /\ (forall row, row ∈ orgs w' -> row ∈ orgs (examples.empty_world false))
    /\ (forall row, row ∈ orgs w' ->
          org_name row <> "Acme Rivers And Lakes Foundation").
Proof.
  apply (create_organization_rolls_back (H := examples.collaborators)
           setup_workspace_keeps_to_its_org examples.acme
           (examples.empty_world false)
           (Exception "airbyte is not reachable")).
  - intros row Hrow. inversion Hrow.
  - reflexivity.
Defined.

Lemma created_org_slug_witness :
  examples.acme_row
    ∈ orgs (snd (create_organization (H := examples.collaborators)
                   examples.acme (examples.empty_world true)))
  /\ (examples.acme_row ∈ orgs (examples.empty_world true)
      \/ (exists slug,
            org_name examples.acme_row = "Acme Rivers And Lakes Foundation"
            /\ org_slug examples.acme_row = Some slug
            /\ slug = "acme rivers and lake"
            /\ String.length slug <= 20)).
Proof.
  assert (Hrow : examples.acme_row
                   ∈ orgs (snd (create_organization (H := examples.collaborators)
                                  examples.acme (examples.empty_world true)))).
  { apply list_elem_of_In. vm_compute. left. reflexivity. }
  split; [exact Hrow |].
  exact (proj1 (created_org_slug (H := examples.collaborators)
                  setup_workspace_keeps_to_its_org)
           examples.acme (examples.empty_world true) examples.acme_row Hrow).
Defined.

End org_facts.

(** ** orgfunctions.py: further properties *)
Module orgfunctions_facts.
Import models orm orgfunctions contracts api_contracts table_facts org_facts.
Section Facts.
Context `{Collaborators}.

Lemma first_filter_found {A} (P : A -> bool) (rows : list A) (row : A) :
  first (List.filter P rows) = Some row -> row ∈ rows /\ P row = true.
Proof.
  unfold first. intros Hhead.
  assert (Hin : In row (List.filter P rows)).
  { destruct (List.filter P rows); simpl in Hhead; [discriminate |].
    injection Hhead as ->. left. reflexivity. }
  apply filter_In in Hin as [Hin HP]. split; [| exact HP].
  apply list_elem_of_In. exact Hin.
Qed.

Lemma same_name_found (n : string) (rows : list Org) (row : Org) :
  row ∈ rows -> lower (org_name row) = lower n ->
  is_Some (first (List.filter (name__iexact n) rows)).
Proof.
  intros Hrow Hname. apply (first_filter_is_Some _ _ row Hrow).
  unfold name__iexact. apply String.eqb_eq. exact Hname.
Qed.

(** X1: the duplicate check of [create_organization] ignores letter case.
    If some org's name equals the payload's name up to ASCII case, the
    call returns [(None, "client org with this name already exists")] and
    changes nothing: no row is saved and no collaborator is called. *)
Theorem create_organization_refuses_same_name :
  forall (payload : CreateOrgSchema) (w : World Outside) (row : Org),
    row ∈ orgs w ->
    lower (org_name row) = lower (name payload) ->
    create_organization payload w
    = (Returned (None, Some "client org with this name already exists"), w).
Proof.
  intros payload w row Hrow Hname. unfold create_organization.
  destruct (same_name_found _ _ _ Hrow Hname) as [found ->]. reflexivity.
Qed.

(** X2: whenever [create_organization] or [create_orgPlan] returns, the
    pair holds either an object and no error, or no object and one of the
    fixed error messages; never both and never neither. *)
Theorem org_functions_return_object_or_error :
  (forall (payload : CreateOrgSchema) (w w' : World Outside) o e,
      create_organization payload w = (Returned (o, e), w') ->
      (exists org, o = Some org /\ e = None)
      \/ (o = None
          /\ (e = Some "client org with this name already exists"
              \/ e = Some "could not create airbyte workspace")))
  /\ (forall (payload : CreateOrgSchema) (org : Org) (w w' : World Outside) o e,
      create_orgPlan payload org w = (Returned (o, e), w') ->
      (exists plan, o = Some plan /\ e = None)
      \/ (o = None /\ e = Some "client org's plan already exists")).
Proof.
  split.
  - intros payload w w' o e. unfold create_organization.
    destruct (first _) as [found |].
    { intros Hcall. inversion Hcall. right. auto. }
    destruct (Org_save _ w) as [org1 w1].
    destruct (create_organization_try org1 w1) as [[[] | err] [org2 w2]].
    + unfold mbind, M_bind, Org_refresh_from_db.
      destruct (org_id org2) as [k |]; [| discriminate].
      destruct (first _) as [row |]; [| discriminate].
      simpl. intros Hcall. inversion Hcall. left. eauto.
    + unfold mbind, M_bind, logger_error, Org_delete. simpl.
      destruct (org_id org2) as [k |]; [| discriminate].
      simpl. intros Hcall. inversion Hcall. right. auto.
  - intros payload org w w' o e. unfold create_orgPlan.
    destruct (first _) as [found |].
    { intros Hcall. inversion Hcall. right. auto. }
    unfold mbind, M_bind, OrgPlans_create.
    destruct (org_id org) as [k |]; [| discriminate].
    destruct (existsb (Org_has_id k) (orgs w)); [| discriminate].
    simpl. intros Hcall. inversion Hcall. left. eauto.
Qed.

(** X3: when [create_organization] returns an org, for a workspace helper
    that keeps to its org and a table whose next key is free, that org is a
    row of the table under the new key, with the payload's name and the
    slug [slugify(name)[:20]]; and creating an org of the same name, in any
    letter case, is refused from then on. *)
Theorem created_org_is_stored_and_blocks_its_name :
  setup_keeps_to_its_org ->
  forall (payload : CreateOrgSchema) (w w' : World Outside) (org : Org),
    next_org_key_unused w ->
    create_organization payload w = (Returned (Some org, None), w') ->
    org ∈ orgs w'
    /\ org_id org = Some (orgs_seq w)
    /\ org_name org = name payload
    /\ org_slug org = Some (slice_to 20 (slugify (name payload)))
    /\ forall again : CreateOrgSchema,
         lower (name again) = lower (name payload) ->
         create_organization again w'
         = (Returned (None, Some "client org with this name already exists"), w').
Proof.
  intros Hsetup payload w w' org Hunused Hcall.
  assert (Hstored : org ∈ orgs w' /\ org_id org = Some (orgs_seq w)
                    /\ org_name org = name payload
                    /\ org_slug org = Some (slice_to 20 (slugify (name payload)))).
  { destruct (first (List.filter (name__iexact (name payload)) (orgs w)))
      as [found |] eqn:Hfirst.
    { unfold create_organization in Hcall. rewrite Hfirst in Hcall.
      discriminate Hcall. }
    rewrite (create_organization_new payload w) in Hcall
      by (apply first_filter_None; exact Hfirst).
    unfold create_organization_try in Hcall.
    destruct (setup_airbyte_workspace_v1 _ _ _) as [r [org2 w2]] eqn:Hsetup_call.
    pose proof (key_after_setup _ _ _ _ _ _ Hsetup Hsetup_call) as Hid.
    pose proof (fun x => (fun Hsame => rows_after_setup _ _ _ _ _ _ x Hsetup
                                        Hsame Hsetup_call) eq_refl) as Hrows.
    destruct r as [workspace | err].
    - unfold call_outside in Hcall.
      destruct (add_custom_connectors_to_workspace_delay _ _ _) as [r' o'].
      destruct r' as [[] | err].
      + unfold mbind, M_bind, Org_refresh_from_db in Hcall.
        rewrite Hid in Hcall.
        destruct (first (List.filter (Org_has_id (orgs_seq w))
                                     (orgs (set_outside o' w2))))
          as [row |] eqn:Hfound; [| discriminate Hcall].
        simpl in Hcall. inversion Hcall. subst row w'. clear Hcall.
        apply first_filter_found in Hfound as [Hin Hkey].
        unfold Org_has_id in Hkey. apply bool_decide_eq_true_1 in Hkey.
        simpl in Hin. split; [exact Hin |]. split; [exact Hkey |].
        destruct (Hrows org Hin) as [Hold | (_ & Hname & Hslug)].
        * exfalso. exact (Hunused org Hold Hkey).
        * split; assumption.
      + destruct (except_branch org2 _ (set_outside o' w2) err Hid)
          as (w3 & Hexcept & _).
        rewrite Hexcept in Hcall. discriminate Hcall.
    - destruct (except_branch org2 _ w2 err Hid) as (w3 & Hexcept & _).
      rewrite Hexcept in Hcall. discriminate Hcall. }
  destruct Hstored as (Hin & Hkey & Hname & Hslug).
  repeat (split; [assumption |]).
  intros again Hagain. unfold create_organization.
  destruct (same_name_found (name again) _ org Hin) as [found ->];
    [congruence | reflexivity].
Qed.

(** X4: an org gets at most one plan from [create_orgPlan].  Once a call
    for an org has returned, with a new plan or with the refusal, every
    further call for that org, with any payload, returns
    [(None, "client org's plan already exists")] and changes nothing. *)
Theorem create_orgPlan_second_call_refused :
  forall (first_payload second_payload : CreateOrgSchema) (org : Org)
         (w w1 : World Outside) r,
    create_orgPlan first_payload org w = (Returned r, w1) ->
    create_orgPlan second_payload org w1
    = (Returned (None, Some "client org's plan already exists"), w1).
Proof.
  intros first_payload second_payload org w w1 r Hcall.
  assert (Hfound : is_Some
            (first (List.filter
                      (fun row => bool_decide (plan_org row = org_id org))
                      (orgplans w1)))).
  { unfold create_orgPlan in Hcall.
    destruct (first (List.filter _ (orgplans w))) as [found |] eqn:Hfirst.
    - inversion Hcall. subst w1. rewrite Hfirst. eauto.
    - unfold mbind, M_bind, OrgPlans_create in Hcall.
      destruct (org_id org) as [k |] eqn:Hk; [| discriminate].
      destruct (existsb (Org_has_id k) (orgs w)); [| discriminate].
      simpl in Hcall. inversion Hcall. subst w1. simpl.
      eapply first_filter_is_Some.
      + apply elem_of_app. right. apply list_elem_of_singleton. reflexivity.
      + simpl. apply bool_decide_eq_true_2. reflexivity. }
  destruct Hfound as [found Hfound].
  unfold create_orgPlan. rewrite Hfound. reflexivity.
Qed.

(** X5: [create_orgPlan] keeps the plans table free of two plans for one
    org, gives a new plan the next key, and touches no other table, no
    outside service and not the log. *)
Theorem create_orgPlan_keeps_one_plan_per_org :
  forall (payload : CreateOrgSchema) (org : Org) (w : World Outside),
    NoDup (map plan_org (orgplans w)) ->
    let w' := snd (create_orgPlan payload org w) in
    NoDup (map plan_org (orgplans w'))
    /\ orgs w' = orgs w /\ orgwarehouses w' = orgwarehouses w
    /\ orgusers w' = orgusers w /\ outside w' = outside w /\ log w' = log w
    /\ forall plan, plan ∈ orgplans w' -> plan ∈ orgplans w
                    \/ plan_id plan = Some (orgplans_seq w).
Proof.
  intros payload org w Hnodup. unfold create_orgPlan.
  destruct (first _) as [found |] eqn:Hfirst; simpl.
  { repeat (split; [auto; fail |]). auto. }
  unfold mbind, M_bind, OrgPlans_create.
  destruct (org_id org) as [k |] eqn:Hk; simpl;
    [| repeat (split; [auto; fail |]); auto].
  destruct (existsb (Org_has_id k) (orgs w)); simpl;
    [| repeat (split; [auto; fail |]); auto].
  split; [| repeat (split; [reflexivity |])].
  - rewrite map_app. simpl. apply NoDup_app. split; [exact Hnodup |].
    split; [| apply NoDup_singleton].
    intros key Hkey Hnew. apply list_elem_of_singleton in Hnew. subst key.
    apply list_elem_of_In, in_map_iff in Hkey as (row & Horg & Hin).
    apply list_elem_of_In in Hin.
    pose proof (proj1 (first_filter_None _ _) Hfirst row Hin) as Hnot.
    simpl in Hnot. apply bool_decide_eq_false_1 in Hnot. contradiction.
  - intros plan Hplan. apply elem_of_app in Hplan as [Hold | Hnew];
      [left; exact Hold | right].
    apply list_elem_of_singleton in Hnew. subst plan. reflexivity.
Qed.

(** X6: the org is also taken out again when the workspace was set up but
    queueing the connector task raises.  [create_organization] then returns
    [(None, "could not create airbyte workspace")], the [Org] table holds
    only rows it held before, and the outside world stays as the failed
    queueing left it: what the helper set up outside is not undone. *)
Theorem create_organization_rolls_back_on_queue_failure :
  setup_keeps_to_its_org ->
  forall (payload : CreateOrgSchema) (w : World Outside)
         (workspace : AirbyteWorkspace) (org2 : Org) (w2 : World Outside)
         (err : exn) (o' : Outside),
    (forall row, row ∈ orgs w -> name__iexact (name payload) row = false) ->
    setup_airbyte_workspace_v1 (org_slug (fst (saved_org (name payload) w)))
      (fst (saved_org (name payload) w)) (snd (saved_org (name payload) w))
    = (Returned workspace, (org2, w2)) ->
    add_custom_connectors_to_workspace_delay (workspaceId workspace)
      (map snd AIRBYTE_CUSTOM_SOURCES) (outside w2) = (Raised err, o') ->
    exists w',
      create_organization payload w
      = (Returned (None, Some "could not create airbyte workspace"), w')
      /\ (forall row, row ∈ orgs w' ->
            row ∈ orgs w /\ org_id row <> Some (orgs_seq w))
      /\ outside w' = o'.
Proof.
  intros Hsetup payload w workspace org2 w2 err o' Hfree Hcall Hqueue.
  rewrite (create_organization_new payload w Hfree).
  unfold create_organization_try.
  pose proof (key_after_setup _ _ _ _ _ _ Hsetup Hcall) as Hid.
  pose proof (fun x => (fun Hsame => rows_after_setup _ _ _ _ _ _ x Hsetup
                                      Hsame Hcall) eq_refl) as Hrows.
  rewrite Hcall. unfold call_outside. rewrite Hqueue.
  unfold mbind, M_bind, logger_error, Org_delete. simpl. rewrite Hid.
  eexists. split; [reflexivity |]. simpl. split; [| reflexivity].
  intros row Hrow. apply removed_rows in Hrow as [Hin Hne].
  split; [| exact Hne].
  destruct (Hrows row Hin) as [Hold | (Hkey & _)]; [exact Hold | contradiction].
Qed.

End Facts.

(** The workspace helper keeps to its org under [more_examples.queue_down]
    too. *)
Lemma setup_workspace_keeps_to_its_org_queue_down :
  setup_keeps_to_its_org (H := more_examples.queue_down).
Proof.
  intros slug org k w r org' w' Hk Hcall.
  change (examples.setup_workspace slug org w = (r, (org', w'))) in Hcall.
  unfold examples.setup_workspace in Hcall.
  match type of Hcall with
  | (if ?up then _ else _) = _ => destruct up
  end.
  - unfold Org_save in Hcall. simpl in Hcall. rewrite Hk in Hcall.
    match type of Hcall with
    | (_, if ?found then _ else _) = _ => destruct found
    end;
      inversion Hcall; subst r org' w'; clear Hcall; simpl;
      (split; [reflexivity |]); intros row Hrow.
    + apply list_elem_of_In, in_map_iff in Hrow as (row0 & Heq & Hin0).
      destruct (Org_has_id k row0); subst row.
      * right. simpl. auto.
      * left. apply list_elem_of_In. exact Hin0.
    + apply elem_of_app in Hrow as [Hrow | Hrow]; [left; exact Hrow |].
      apply list_elem_of_singleton in Hrow. subst row. right. simpl. auto.
  - inversion Hcall; subst r org' w'; clear Hcall.
    split; [exact Hk |]. intros row Hrow. left. exact Hrow.
Qed.

Lemma create_organization_rolls_back_on_queue_failure_witness :
  exists w',
    create_organization (H := more_examples.queue_down) examples.acme
      (examples.empty_world true)
    = (Returned (None, Some "could not create airbyte workspace"), w')
    /\ (forall row, row ∈ orgs w' -> row ∈ [] /\ org_id row <> Some 1)
    /\ outside w' = outside (examples.empty_world true).
Proof.
  apply (create_organization_rolls_back_on_queue_failure
           (H := more_examples.queue_down)
           setup_workspace_keeps_to_its_org_queue_down examples.acme
           (examples.empty_world true)
           {| workspaceId := "ws-acme rivers and lake" |}
           (fst (snd (setup_airbyte_workspace_v1 (Collaborators := more_examples.queue_down)
                        (Some "acme rivers and lake")
                        (fst (saved_org (H := more_examples.queue_down)
                                "Acme Rivers And Lakes Foundation"
                                (examples.empty_world true)))
                        (snd (saved_org (H := more_examples.queue_down)
                                "Acme Rivers And Lakes Foundation"
                                (examples.empty_world true))))))
           (snd (snd (setup_airbyte_workspace_v1 (Collaborators := more_examples.queue_down)
                        (Some "acme rivers and lake")
                        (fst (saved_org (H := more_examples.queue_down)
                                "Acme Rivers And Lakes Foundation"
                                (examples.empty_world true)))
                        (snd (saved_org (H := more_examples.queue_down)
                                "Acme Rivers And Lakes Foundation"
                                (examples.empty_world true))))))
           (Exception "broker is not reachable")
           (outside (examples.empty_world true))).
  - intros row Hrow. inversion Hrow.
  - reflexivity.
  - reflexivity.
Defined.

Lemma create_organization_refuses_same_name_witness :
  create_organization (H := examples.collaborators) more_examples.acme_shouting
    examples.one_org_world
  = (Returned (None, Some "client org with this name already exists"),
     examples.one_org_world).
Proof.
  apply (create_organization_refuses_same_name (H := examples.collaborators)
           more_examples.acme_shouting examples.one_org_world examples.an_org).
  - vm_compute. left.
  - reflexivity.
Defined.

Lemma org_functions_return_object_or_error_witness :
  (exists org, Some examples.acme_row = Some org /\ @None string = None)
  \/ (Some examples.acme_row = None
      /\ (@None string = Some "client org with this name already exists"
          \/ @None string = Some "could not create airbyte workspace")).
Proof.
  apply (proj1 (org_functions_return_object_or_error (H := examples.collaborators))
           examples.acme (examples.empty_world true)
           (snd (create_organization (H := examples.collaborators) examples.acme
                   (examples.empty_world true)))).
  vm_compute. reflexivity.
Defined.

Lemma created_org_is_stored_and_blocks_its_name_witness :
  org_id examples.acme_row = Some 1
  /\ create_organization (H := examples.collaborators) examples.acme
       (snd (create_organization (H := examples.collaborators) examples.acme
               (examples.empty_world true)))
     = (Returned (None, Some "client org with this name already exists"),
        snd (create_organization (H := examples.collaborators) examples.acme
               (examples.empty_world true))).
Proof.
  destruct (created_org_is_stored_and_blocks_its_name
              (H := examples.collaborators) setup_workspace_keeps_to_its_org
              examples.acme (examples.empty_world true)
              (snd (create_organization (H := examples.collaborators)
                      examples.acme (examples.empty_world true)))
              examples.acme_row)
    as (_ & Hkey & _ & _ & Hagain).
  - intros row Hrow. inversion Hrow.
  - vm_compute. reflexivity.
  - split; [exact Hkey |]. apply Hagain. reflexivity.
Defined.

Lemma create_orgPlan_second_call_refused_witness :
  create_orgPlan (H := examples.collaborators) more_examples.acme_shouting
    examples.an_org
    (snd (create_orgPlan (H := examples.collaborators) examples.acme
            examples.an_org examples.one_org_world))
  = (Returned (None, Some "client org's plan already exists"),
     snd (create_orgPlan (H := examples.collaborators) examples.acme
            examples.an_org examples.one_org_world)).
Proof.
  eapply (create_orgPlan_second_call_refused (H := examples.collaborators)
            examples.acme more_examples.acme_shouting examples.an_org
            examples.one_org_world).
  reflexivity.
Defined.

Lemma create_orgPlan_keeps_one_plan_per_org_witness :
  NoDup (map plan_org
           (orgplans (snd (create_orgPlan (H := examples.collaborators)
                             examples.acme examples.an_org
                             examples.one_org_world)))).
Proof.
  apply (create_orgPlan_keeps_one_plan_per_org (H := examples.collaborators)
           examples.acme examples.an_org examples.one_org_world).
  simpl. apply NoDup_nil_2.
Defined.

End orgfunctions_facts.

(** ** user_org_api.py: further properties of registering a warehouse *)
Module warehouse_more_facts.
Import models orm user_org_api contracts api_contracts table_facts.
Section Facts.
Context `{Collaborators}.

Lemma in_warehouse_types (wtype : string) :
  wtype ∈ ["postgres"; "bigquery"; "snowflake"] ->
  existsb (String.eqb wtype) ["postgres"; "bigquery"; "snowflake"] = true.
Proof.
  intros Hin. apply existsb_exists. exists wtype. split.
  - apply list_elem_of_In. exact Hin.
  - apply String.eqb_refl.
Qed.

Lemma recognised_wtype (wtype : string) :
  wtype ∈ ["postgres"; "bigquery"; "snowflake"] ->
  wtype = "postgres" \/ wtype = "bigquery" \/ wtype = "snowflake".
Proof.
  intros Hin.
  repeat (apply elem_of_cons in Hin as [-> | Hin]; [auto |]).
  inversion Hin.
Qed.

Lemma OrgUser_org_keeps_world (orguser : OrgUser) (w : World Outside) :
  snd (OrgUser_org orguser w) = w.
Proof.
  unfold OrgUser_org. destruct (orguser_org orguser) as [k |]; [| reflexivity].
  destruct (first _); reflexivity.
Qed.

(** Reading the credentials stops at a key that is missing. *)
Lemma dbt_credentials_of_missing (payload : OrgWarehouseSchema) :
  payload_wtype payload ∈ ["postgres"; "bigquery"; "snowflake"] ->
  (exists key, key ∈ credential_keys (payload_wtype payload)
               /\ payload_airbyteConfig payload !! key = None) ->
  exists key,
    key ∈ credential_keys (payload_wtype payload)
    /\ payload_airbyteConfig payload !! key = None
    /\ dbt_credentials_of payload = Raised (KeyError key).
Proof.
  intros Hwtype (missing & Hmissing & Hnone).
  unfold dbt_credentials_of, getitem.
  destruct (recognised_wtype _ Hwtype) as [Hw | [Hw | Hw]];
    rewrite Hw in Hmissing |- *; simpl in Hmissing |- *;
    repeat match goal with
    | |- context [payload_airbyteConfig payload !! ?key] =>
        destruct (payload_airbyteConfig payload !! key) eqn:?; simpl;
        [| exists key; split;
           [apply list_elem_of_In; simpl; tauto | split; [assumption | reflexivity]]]
    end;
    exfalso;
    repeat (apply elem_of_cons in Hmissing as [-> | Hmissing]; [congruence |]);
    inversion Hmissing.
Qed.

(** X7: for "postgres" and "snowflake" the credentials prepared from
    [airbyteConfig] are never [None], and when [airbyteConfig] has every
    key the type needs they are the dictionary of exactly those keys with
    the values of [airbyteConfig].  For "bigquery" they are what
    [json.loads] gives for [credentials_json]: [None] exactly when that
    text is the JSON [null], and the loaded value otherwise. *)
Theorem dbt_credentials_of_complete :
  forall payload : OrgWarehouseSchema,
    payload_wtype payload ∈ ["postgres"; "bigquery"; "snowflake"] ->
    (payload_wtype payload <> "bigquery" ->
     dbt_credentials_of payload <> Returned None
     /\ ((forall key, key ∈ credential_keys (payload_wtype payload) ->
                      is_Some (payload_airbyteConfig payload !! key)) ->
         exists values,
           Forall2 (fun key value =>
                      payload_airbyteConfig payload !! key = Some value)
                   (credential_keys (payload_wtype payload)) values
           /\ dbt_credentials_of payload
              = Returned (Some (JObj (zip (credential_keys (payload_wtype payload))
                                          values)))))
    /\ (payload_wtype payload = "bigquery" ->
        forall text,
          payload_airbyteConfig payload !! "credentials_json" = Some (JStr text) ->
          (dbt_credentials_of payload = Returned None
           <-> json_loads text = Returned JNull)
          /\ (forall loaded, loaded <> JNull ->
                (dbt_credentials_of payload = Returned (Some loaded)
                 <-> json_loads text = Returned loaded))).
Proof.
  intros payload Hwtype. split.
  - intros Hnot_bigquery. split.
    + unfold dbt_credentials_of, getitem.
      destruct (recognised_wtype _ Hwtype) as [Hw | [Hw | Hw]];
        [| contradiction |]; rewrite Hw; simpl;
        repeat match goal with
        | |- context [payload_airbyteConfig payload !! ?key] =>
            destruct (payload_airbyteConfig payload !! key) eqn:?; simpl;
            [| discriminate]
        end; discriminate.
    + intros Hall. unfold dbt_credentials_of, getitem.
      destruct (recognised_wtype _ Hwtype) as [Hw | [Hw | Hw]];
        [| contradiction |]; rewrite Hw in Hall |- *; simpl in Hall |- *;
        repeat match goal with
        | |- context [payload_airbyteConfig payload !! ?key] =>
            let Hkey := fresh "Hkey" in
            destruct (Hall key) as [? Hkey];
              [apply list_elem_of_In; simpl; tauto |]; rewrite Hkey; simpl
        end;
        eexists; (split; [repeat constructor; eassumption | reflexivity]).
  - intros Hw text Htext. unfold dbt_credentials_of, getitem.
    rewrite Hw. simpl. rewrite Htext. simpl.
    destruct (json_loads text) as [loaded | err]; simpl;
      unfold mret, outcome_ret.
    + split.
      * destruct loaded; split; intros Heq; congruence.
      * intros wanted Hwanted.
        destruct loaded; split; intros Heq; congruence.
    + split; [split; discriminate |].
      intros wanted Hwanted. split; discriminate.
Qed.

(** X8: a warehouse of a recognised type whose [airbyteConfig] lacks a key
    the type needs is rejected with [KeyError] on a missing key only after
    the destination has been created: the outside world is the one
    [create_destination] left, and no [OrgWarehouse] row is written. *)
Theorem missing_credential_key_leaves_destination :
  forall (request : Request) (payload : OrgWarehouseSchema) (w : World Outside)
         (org : Org) (destination : gmap string json) (o' : Outside)
         (id : string),
    payload_wtype payload ∈ ["postgres"; "bigquery"; "snowflake"] ->
    fst (OrgUser_org (request_orguser request) w) = Returned (Some org) ->
    create_destination (org_airbyte_workspace_id org)
      (payload_wtype payload ++ "-warehouse") (payload_destinationDefId payload)
      (payload_airbyteConfig payload) (outside w) = (Returned destination, o') ->
    destination !! "destinationId" = Some (JStr id) ->
    (exists key, key ∈ credential_keys (payload_wtype payload)
                 /\ payload_airbyteConfig payload !! key = None) ->
    exists key w',
      key ∈ credential_keys (payload_wtype payload)
      /\ payload_airbyteConfig payload !! key = None
      /\ post_organization_warehouse request payload w = (Raised (KeyError key), w')
      /\ outside w' = o'
      /\ orgwarehouses w' = orgwarehouses w
      /\ log w' = (log w ++ [("INFO created destination having id " ++ id)%string])%list.
Proof.
  intros request payload w org destination o' id Hwtype Horg Hcreate Hid Hmissing.
  destruct (dbt_credentials_of_missing payload Hwtype Hmissing)
    as (key & Hkey & Hnone & Hraise).
  exists key. eexists. split; [exact Hkey |]. split; [exact Hnone |].
  unfold post_organization_warehouse.
  rewrite (in_warehouse_types _ Hwtype). simpl negb. cbv iota.
  unfold mbind, M_bind. simpl.
  pose proof (OrgUser_org_keeps_world (request_orguser request) w) as Hsame.
  destruct (OrgUser_org (request_orguser request) w) as [r w1].
  simpl in Horg, Hsame. subst r w1. simpl.
  unfold call_outside. rewrite Hcreate. simpl.
  unfold lift, getitem. rewrite Hid. simpl. rewrite Hraise. simpl.
  repeat split.
Qed.

(** X9: when every step succeeds, exactly one [OrgWarehouse] row is
    appended; it carries the payload's name and type, the org of the
    requestor, the destination id that Airbyte answered and, as
    credentials, the lookup key that the secrets manager returned for the
    row with empty credentials. *)
Theorem registered_warehouse_row :
  forall (request : Request) (payload : OrgWarehouseSchema) (w : World Outside)
         (org : Org) (destination : gmap string json) (o' o'' : Outside)
         (id lookupkey : string) (credentials : option json),
    payload_wtype payload ∈ ["postgres"; "bigquery"; "snowflake"] ->
    fst (OrgUser_org (request_orguser request) w) = Returned (Some org) ->
    create_destination (org_airbyte_workspace_id org)
      (payload_wtype payload ++ "-warehouse") (payload_destinationDefId payload)
      (payload_airbyteConfig payload) (outside w) = (Returned destination, o') ->
    destination !! "destinationId" = Some (JStr id) ->
    dbt_credentials_of payload = Returned credentials ->
    save_warehouse_credentials
      {| warehouse_id := None; warehouse_org := org_id org;
         warehouse_name := payload_name payload;
         warehouse_wtype := payload_wtype payload;
         warehouse_credentials := "";
         warehouse_airbyte_destination_id := JStr id |}
      credentials o' = (Returned lookupkey, o'') ->
    exists w',
      post_organization_warehouse request payload w
      = (Returned (JObj [("success", JNum 1)]), w')
      /\ orgwarehouses w'
         = (orgwarehouses w
            ++ [{| warehouse_id := Some (orgwarehouses_seq w);
                   warehouse_org := org_id org;
                   warehouse_name := payload_name payload;
                   warehouse_wtype := payload_wtype payload;
                   warehouse_credentials := lookupkey;
                   warehouse_airbyte_destination_id := JStr id |}])%list
      /\ outside w' = o''
      /\ orgs w' = orgs w.
Proof.
  intros request payload w org destination o' o'' id lookupkey credentials
         Hwtype Horg Hcreate Hid Hcredentials Hsave.
  eexists. unfold post_organization_warehouse.
  rewrite (in_warehouse_types _ Hwtype). simpl negb. cbv iota.
  unfold mbind, M_bind. simpl.
  pose proof (OrgUser_org_keeps_world (request_orguser request) w) as Hsame.
  destruct (OrgUser_org (request_orguser request) w) as [r w1].
  simpl in Horg, Hsame. subst r w1. simpl.
  unfold call_outside. rewrite Hcreate. simpl.
  unfold lift, getitem. rewrite Hid. simpl. rewrite Hcredentials. simpl.
  rewrite Hsave. simpl. repeat split.
Qed.

(** X10: [post_organization_warehouse] writes to the [OrgWarehouse] table
    only when it returns, and then exactly one row of a recognised type
    under the next key; when it raises, at whatever step, that table is as
    it was.  The [Org], [OrgUser] and plan tables are never touched. *)
Theorem warehouse_row_only_on_success :
  forall (request : Request) (payload : OrgWarehouseSchema) (w : World Outside),
    let r := fst (post_organization_warehouse request payload w) in
    let w' := snd (post_organization_warehouse request payload w) in
    orgs w' = orgs w /\ orgusers w' = orgusers w /\ orgplans w' = orgplans w
    /\ match r with
       | Raised _ => orgwarehouses w' = orgwarehouses w
       | Returned v =>
           v = JObj [("success", JNum 1)]
           /\ payload_wtype payload ∈ ["postgres"; "bigquery"; "snowflake"]
           /\ exists row,
                orgwarehouses w' = (orgwarehouses w ++ [row])%list
                /\ warehouse_id row = Some (orgwarehouses_seq w)
                /\ warehouse_wtype row = payload_wtype payload
                /\ warehouse_name row = payload_name payload
       end.
Proof.
  intros request payload w. unfold post_organization_warehouse.
  destruct (existsb _ _) eqn:Hguard; simpl negb; cbv iota;
    [| simpl; auto].
  assert (Hwtype : payload_wtype payload ∈ ["postgres"; "bigquery"; "snowflake"]).
  { destruct (proj1 (existsb_exists _ _) Hguard) as (known & Hin & Heq).
    apply String.eqb_eq in Heq. subst known. apply list_elem_of_In. exact Hin. }
  unfold mbind, M_bind. simpl.
  pose proof (OrgUser_org_keeps_world (request_orguser request) w) as Hsame.
  destruct (OrgUser_org (request_orguser request) w) as [[[org |] | e] w1];
    simpl in Hsame; subst w1; simpl; auto.
  unfold call_outside.
  destruct (create_destination _ _ _ _ _) as [[destination | e] o']; simpl; auto.
  unfold lift, getitem.
  destruct (destination !! "destinationId") as [destinationId |]; simpl; auto.
  destruct (concat_str _ destinationId) as [message | e]; simpl; auto.
  destruct (dbt_credentials_of payload) as [credentials | e]; simpl; auto.
  destruct (save_warehouse_credentials _ _ _) as [[lookupkey | e] o'']; simpl; auto.
  split; [reflexivity |]. split; [reflexivity |]. split; [reflexivity |].
  split; [reflexivity |]. split; [exact Hwtype |].
  eexists. repeat split.
Qed.

End Facts.

Lemma dbt_credentials_of_complete_witness :
  dbt_credentials_of (H := examples.collaborators) examples.postgres_payload
  <> Returned None.
Proof.
  apply (proj1 (dbt_credentials_of_complete (H := examples.collaborators)
                  examples.postgres_payload ltac:(vm_compute; left))).
  discriminate.
Defined.

Lemma missing_credential_key_leaves_destination_witness :
  exists key w',
    key ∈ credential_keys "postgres"
    /\ payload_airbyteConfig more_examples.postgres_no_password !! key = None
    /\ post_organization_warehouse (H := examples.collaborators)
         examples.a_member_request more_examples.postgres_no_password
         examples.one_org_world = (Raised (KeyError key), w')
    /\ outside w'
       = examples.record "destination postgres-warehouse"
           (outside examples.one_org_world)
    /\ orgwarehouses w' = []
    /\ log w' = ["INFO created destination having id dest-postgres-warehouse"].
Proof.
  apply (missing_credential_key_leaves_destination (H := examples.collaborators)
           examples.a_member_request more_examples.postgres_no_password
           examples.one_org_world examples.an_org
           {[ "destinationId" := JStr "dest-postgres-warehouse" ]}
           (examples.record "destination postgres-warehouse"
              (outside examples.one_org_world))
           "dest-postgres-warehouse").
  - vm_compute. left.
  - reflexivity.
  - reflexivity.
  - reflexivity.
  - exists "password". split; [apply list_elem_of_In; simpl; tauto | reflexivity].
Defined.

Lemma registered_warehouse_row_witness :
  exists w',
    post_organization_warehouse (H := examples.collaborators)
      examples.a_member_request examples.postgres_payload examples.one_org_world
    = (Returned (JObj [("success", JNum 1)]), w')
    /\ orgwarehouses w'
       = [{| warehouse_id := Some 1; warehouse_org := Some 1;
             warehouse_name := "main"; warehouse_wtype := "postgres";
             warehouse_credentials := "secret-main";
             warehouse_airbyte_destination_id := JStr "dest-postgres-warehouse" |}]
    /\ outside w'
       = examples.record "secret main"
           (examples.record "destination postgres-warehouse"
              (outside examples.one_org_world))
    /\ orgs w' = [examples.an_org].
Proof.
  apply (registered_warehouse_row (H := examples.collaborators)
           examples.a_member_request examples.postgres_payload
           examples.one_org_world examples.an_org
           {[ "destinationId" := JStr "dest-postgres-warehouse" ]}
           (examples.record "destination postgres-warehouse"
              (outside examples.one_org_world))
           (examples.record "secret main"
              (examples.record "destination postgres-warehouse"
                 (outside examples.one_org_world)))
           "dest-postgres-warehouse" "secret-main"
           (Some (JObj [("host", JStr "db"); ("port", JNum 5432);
                        ("username", JStr "u"); ("password", JStr "p");
                        ("database", JStr "d")])));
    try reflexivity.
  vm_compute. left.
Defined.

End warehouse_more_facts.

(** ** user_org_api.py: further properties of [post_organization_v1] *)
Module v1_facts.
Import models orm user_org_api contracts api_contracts table_facts org_facts.
Import orgfunctions_facts.
Section Facts.
Context `{Collaborators}.

(** X11: [post_organization_v1] answers 403 and changes nothing unless the
    requesting user has a [UserAttributes] row that allows creating orgs:
    whenever every attributes row of the user has [can_create_orgs] false,
    and in particular when the user has no such row. *)
Theorem post_organization_v1_needs_permission :
  forall (request : Request) (payload : OrgSchema) (w : World Outside),
    (forall row, row ∈ userattributes w ->
       attributes_user row = user_id (orguser_user (request_orguser request)) ->
       can_create_orgs row = false) ->
    post_organization_v1 request payload w
    = (Raised (HttpError 403 "Insufficient permissions for this operation"), w).
Proof.
  intros request payload w Hnone. unfold post_organization_v1.
  destruct (first _) as [attributes |] eqn:Hfirst; [| reflexivity].
  apply first_filter_found in Hfirst as [Hin Huser].
  apply Nat.eqb_eq in Huser. rewrite (Hnone attributes Hin Huser). reflexivity.
Qed.

(** X12: a user who may create orgs is answered 400 "client org with this
    name already exists", with nothing changed, when some org's name equals
    the requested name up to ASCII letter case. *)
Theorem post_organization_v1_refuses_same_name :
  forall (request : Request) (payload : OrgSchema) (w : World Outside) (row : Org),
    may_create_orgs request w ->
    row ∈ orgs w ->
    lower (org_name row) = lower (schema_name payload) ->
    post_organization_v1 request payload w
    = (Raised (HttpError 400 "client org with this name already exists"), w).
Proof.
  intros request payload w row (attributes & Hattributes & Hcan) Hrow Hname.
  unfold post_organization_v1. rewrite Hattributes, Hcan.
  destruct (same_name_found _ _ _ Hrow Hname) as [found ->]. reflexivity.
Qed.

(** X13: when the workspace helper raises in [post_organization_v1], the
    answer is 400 "could not create airbyte workspace" and, for a helper
    that keeps to its org, the new org's row is gone: the [Org] table holds
    only rows it held before, none under the new key, and the [OrgUser]
    table is as the helper left it. *)
Theorem post_organization_v1_rolls_back :
  setup_keeps_to_its_org ->
  forall (request : Request) (payload : OrgSchema) (w : World Outside)
         (err : exn) (org2 : Org) (w2 : World Outside),
    may_create_orgs request w ->
    (forall row, row ∈ orgs w -> name__iexact (schema_name payload) row = false) ->
    v1_setup_call request payload w = (Raised err, (org2, w2)) ->
    exists w',
      post_organization_v1 request payload w
      = (Raised (HttpError 400 "could not create airbyte workspace"), w')
      /\ (forall row, row ∈ orgs w' ->
            row ∈ orgs w /\ org_id row <> Some (orgs_seq w))
      /\ orgusers w' = orgusers w2.
Proof.
  intros Hsetup request payload w err org2 w2 (attributes & Hattributes & Hcan)
         Hfree Hcall.
  apply first_filter_None in Hfree.
  rewrite (post_organization_v1_new _ _ _ _ Hattributes Hcan Hfree). cbv zeta.
  unfold v1_setup_call in Hcall.
  pose proof (key_after_setup _ _ _ _ _ _ Hsetup Hcall) as Hid.
  pose proof (fun x => (fun Hsame => rows_after_setup _ _ _ _ _ _ x Hsetup
                                      Hsame Hcall) eq_refl) as Hrows.
  rewrite Hcall. unfold mbind, M_bind, Org_delete, raise. rewrite Hid. simpl.
  eexists. split; [reflexivity |]. simpl. split; [| reflexivity].
  intros row Hrow. apply removed_rows in Hrow as [Hin Hne].
  split; [| exact Hne].
  destruct (Hrows row Hin) as [Hold | (Hkey & _)]; [exact Hold | contradiction].
Qed.

(** X14: when the helper returns in [post_organization_v1], the answer
    carries the workspace id the helper gave, and the requestor ends up a
    member of the new org: some [OrgUser] row of the requesting user points
    to the new org's key.  A requestor who already belonged to an org gets
    that membership as one appended row, an account manager with verified
    email, the earlier rows being kept. *)
Theorem post_organization_v1_makes_requestor_member :
  setup_keeps_to_its_org ->
  forall (request : Request) (payload : OrgSchema) (w : World Outside)
         (workspace : AirbyteWorkspace) (org2 : Org) (w2 : World Outside),
    may_create_orgs request w ->
    (forall row, row ∈ orgs w -> name__iexact (schema_name payload) row = false) ->
    v1_setup_call request payload w = (Returned workspace, (org2, w2)) ->
    exists w' member,
      post_organization_v1 request payload w
      = (Returned {| schema_name := org_name org2;
                     schema_airbyte_workspace_id := Some (workspaceId workspace);
                     schema_slug := org_slug org2 |}, w')
      /\ orgs w' = orgs w2
      /\ member ∈ orgusers w'
      /\ orguser_user member = orguser_user (request_orguser request)
      /\ orguser_org member = Some (orgs_seq w)
      /\ (is_Some (orguser_org (request_orguser request)) ->
          orgusers w' = (orgusers w2 ++ [member])%list
          /\ orguser_id member = Some (orgusers_seq w2)
          /\ orguser_role member = ACCOUNT_MANAGER
          /\ orguser_email_verified member = true).
Proof.
  intros Hsetup request payload w workspace org2 w2
         (attributes & Hattributes & Hcan) Hfree Hcall.
  apply first_filter_None in Hfree.
  rewrite (post_organization_v1_new _ _ _ _ Hattributes Hcan Hfree). cbv zeta.
  unfold v1_setup_call in Hcall.
  pose proof (key_after_setup _ _ _ _ _ _ Hsetup Hcall) as Hid.
  rewrite Hcall. unfold mbind, M_bind.
  destruct (orguser_org (request_orguser request)) as [k |] eqn:Horg.
  - simpl. eexists. eexists. split; [reflexivity |]. simpl.
    split; [reflexivity |]. split.
    { apply elem_of_app. right. apply list_elem_of_singleton. reflexivity. }
    simpl. repeat split. exact Hid.
  - unfold OrgUser_save.
    destruct (orguser_id (OrgUser_set_org org2 (request_orguser request)))
      as [k |] eqn:Hk.
    + destruct (existsb (OrgUser_has_id k) (orgusers w2)) eqn:Hexists.
      * simpl. eexists. exists (OrgUser_set_org org2 (request_orguser request)).
        split; [reflexivity |]. simpl. split; [reflexivity |]. split.
        { destruct (proj1 (existsb_exists _ _) Hexists) as (row0 & Hin & Hhas).
          apply list_elem_of_In, in_map_iff. exists row0.
          rewrite Hhas. split; [reflexivity | exact Hin]. }
        split; [reflexivity |]. split; [exact Hid |].
        intros [x Hx]. discriminate Hx.
      * simpl. eexists. exists (OrgUser_set_org org2 (request_orguser request)).
        split; [reflexivity |]. simpl. split; [reflexivity |]. split.
        { apply elem_of_app. right. apply list_elem_of_singleton. reflexivity. }
        split; [reflexivity |]. split; [exact Hid |].
        intros [x Hx]. discriminate Hx.
    + simpl. eexists. eexists. split; [reflexivity |]. simpl.
      split; [reflexivity |]. split.
      { apply elem_of_app. right. apply list_elem_of_singleton. reflexivity. }
      simpl. split; [reflexivity |]. split; [exact Hid |].
      intros [x Hx]. discriminate Hx.
Qed.

End Facts.

Lemma post_organization_v1_needs_permission_witness :
  post_organization_v1 (H := examples.collaborators) examples.a_request
    more_examples.rivers (examples.empty_world true)
  = (Raised (HttpError 403 "Insufficient permissions for this operation"),
     examples.empty_world true).
Proof.
  apply (post_organization_v1_needs_permission (H := examples.collaborators)).
  intros row Hrow. inversion Hrow.
Defined.

Lemma may_create_orgs_example (up : bool) :
  may_create_orgs (H := examples.collaborators) examples.a_member_request
    (more_examples.creator_world up).
Proof. eexists. split; reflexivity. Qed.

Lemma rivers_is_free (up : bool) :
  forall row, row ∈ orgs (more_examples.creator_world up) ->
              name__iexact "Rivers" row = false.
Proof.
  intros row Hrow. apply list_elem_of_singleton in Hrow. subst row. reflexivity.
Qed.

Lemma post_organization_v1_refuses_same_name_witness :
  post_organization_v1 (H := examples.collaborators) examples.a_member_request
    {| schema_name := "ACME"; schema_airbyte_workspace_id := None;
       schema_slug := None |}
    (more_examples.creator_world true)
  = (Raised (HttpError 400 "client org with this name already exists"),
     more_examples.creator_world true).
Proof.
  apply (post_organization_v1_refuses_same_name (H := examples.collaborators)
           examples.a_member_request _ (more_examples.creator_world true)
           examples.an_org (may_create_orgs_example true)).
  - apply list_elem_of_singleton. reflexivity.
  - reflexivity.
Defined.

Lemma post_organization_v1_rolls_back_witness :
  exists w',
    post_organization_v1 (H := examples.collaborators) examples.a_member_request
      more_examples.rivers (more_examples.creator_world false)
    = (Raised (HttpError 400 "could not create airbyte workspace"), w')
    /\ (forall row, row ∈ orgs w' ->
          row ∈ [examples.an_org] /\ org_id row <> Some 2)
    /\ orgusers w' = [request_orguser examples.a_member_request].
Proof.
  destruct (post_organization_v1_rolls_back (H := examples.collaborators)
              setup_workspace_keeps_to_its_org examples.a_member_request
              more_examples.rivers (more_examples.creator_world false)
              (Exception "airbyte is not reachable")
              (fst (snd (v1_setup_call (H := examples.collaborators)
                           examples.a_member_request more_examples.rivers
                           (more_examples.creator_world false))))
              (snd (snd (v1_setup_call (H := examples.collaborators)
                           examples.a_member_request more_examples.rivers
                           (more_examples.creator_world false))))
              (may_create_orgs_example false) (rivers_is_free false) eq_refl)
    as (w' & Hcall & Hrows & Husers).
  exists w'. split; [exact Hcall |]. split; [exact Hrows | exact Husers].
Defined.

Lemma post_organization_v1_makes_requestor_member_witness :
  exists w' member,
    fst (post_organization_v1 (H := examples.collaborators)
           examples.a_member_request more_examples.rivers
           (more_examples.creator_world true))
    = Returned {| schema_name := "Rivers";
                  schema_airbyte_workspace_id := Some "ws-rivers";
                  schema_slug := Some "rivers" |}
    /\ w' = snd (post_organization_v1 (H := examples.collaborators)
                   examples.a_member_request more_examples.rivers
                   (more_examples.creator_world true))
    /\ orgusers w' = [request_orguser examples.a_member_request; member]
    /\ orguser_org member = Some 2
    /\ orguser_role member = ACCOUNT_MANAGER.
Proof.
  destruct (post_organization_v1_makes_requestor_member
              (H := examples.collaborators)
              setup_workspace_keeps_to_its_org examples.a_member_request
              more_examples.rivers (more_examples.creator_world true)
              {| workspaceId := "ws-rivers" |}
              (fst (snd (v1_setup_call (H := examples.collaborators)
                           examples.a_member_request more_examples.rivers
                           (more_examples.creator_world true))))
              (snd (snd (v1_setup_call (H := examples.collaborators)
                           examples.a_member_request more_examples.rivers
                           (more_examples.creator_world true))))
              (may_create_orgs_example true) (rivers_is_free true) eq_refl)
    as (w' & member & Hcall & _ & _ & _ & Horg & Hmember).
  destruct Hmember as (Husers & _ & Hrole & _); [eexists; reflexivity |].
  exists w', member. rewrite Hcall.
  split; [reflexivity |]. split; [reflexivity |].
  split; [exact Husers |]. split; [exact Horg | exact Hrole].
Defined.

End v1_facts.

(** ** user_org_api.py: users, invitations and terms *)
Module users_facts.
Import models orm api_models user_org_api_users table_facts orgfunctions_facts.
Section Facts.
Context {C : Collaborators} {helpers : Helpers} {conversions : Conversions}.

Lemma filter_keeps_all {A} (P : A -> bool) (rows : list A) :
  (forall row, row ∈ rows -> P row = true) -> List.filter P rows = rows.
Proof.
  induction rows as [| x rows IH]; intros Hall; simpl; [reflexivity |].
  rewrite (Hall x) by (left). f_equal. apply IH.
  intros row Hrow. apply Hall. right. exact Hrow.
Qed.

Lemma role_in_managers (role : OrgUserRole) :
  existsb (role_eqb role) [ACCOUNT_MANAGER; PIPELINE_MANAGER] = true
  <-> role = ACCOUNT_MANAGER \/ role = PIPELINE_MANAGER.
Proof.
  destruct role; simpl; split; intros Hrole; auto;
    try discriminate; destruct Hrole; discriminate.
Qed.

(** X15: [put_organization_user] answers 400 "not authorized to update
    another user", with nothing changed, to every requestor who is neither
    account manager nor pipeline manager, whatever the email.  A manager is
    answered 400 "could not find user ..." with nothing changed when the
    own org has no user with the requested email, and otherwise the call is
    [update_orguser] on a user row of the manager's own org with that
    email. *)
Theorem put_organization_user_authorization :
  forall (request : Request) (payload : OrgUserUpdate) (w : World Outside),
    (orguser_role (request_orguser request) <> ACCOUNT_MANAGER ->
     orguser_role (request_orguser request) <> PIPELINE_MANAGER ->
     put_organization_user request payload w
     = (Raised (HttpError 400 "not authorized to update another user"), w))
    /\ (orguser_role (request_orguser request) = ACCOUNT_MANAGER
        \/ orguser_role (request_orguser request) = PIPELINE_MANAGER ->
        (forall row, row ∈ orgusers w ->
           user_email (orguser_user row) = toupdate_email payload ->
           orguser_org row <> orguser_org (request_orguser request)) ->
        put_organization_user request payload w
        = (Raised (HttpError 400
                     "could not find user having this email address in this org"),
           w))
    /\ (orguser_role (request_orguser request) = ACCOUNT_MANAGER
        \/ orguser_role (request_orguser request) = PIPELINE_MANAGER ->
        (exists row, row ∈ orgusers w
           /\ user_email (orguser_user row) = toupdate_email payload
           /\ orguser_org row = orguser_org (request_orguser request)) ->
        exists target,
          target ∈ orgusers w
          /\ user_email (orguser_user target) = toupdate_email payload
          /\ orguser_org target = orguser_org (request_orguser request)
          /\ put_organization_user request payload w
             = update_orguser target payload w).
Proof.
  intros request payload w. unfold put_organization_user.
  split; [| split].
  - intros Hnot_am Hnot_pm.
    destruct (existsb _ [ACCOUNT_MANAGER; PIPELINE_MANAGER]) eqn:Hrole;
      [| reflexivity].
    apply role_in_managers in Hrole as [Hrole | Hrole]; contradiction.
  - intros Hrole Hnone. apply role_in_managers in Hrole. rewrite Hrole. simpl.
    assert (Hfirst :
      first (List.filter
               (fun row =>
                  String.eqb (user_email (orguser_user row))
                             (toupdate_email payload)
                  && bool_decide (orguser_org row
                                  = orguser_org (request_orguser request)))
               (orgusers w)) = None).
    { apply first_filter_None. intros row Hrow. apply andb_false_iff.
      destruct (String.eqb_spec (user_email (orguser_user row))
                                (toupdate_email payload)) as [Hemail | Hemail];
        [right | left; reflexivity].
      apply bool_decide_eq_false_2. apply (Hnone row Hrow Hemail). }
    rewrite Hfirst. reflexivity.
  - intros Hrole (row & Hrow & Hemail & Horg).
    apply role_in_managers in Hrole. rewrite Hrole. simpl.
    destruct (first_filter_is_Some
                (fun row =>
                   String.eqb (user_email (orguser_user row))
                              (toupdate_email payload)
                   && bool_decide (orguser_org row
                                   = orguser_org (request_orguser request)))
                (orgusers w) row Hrow) as [target Htarget].
    { apply andb_true_iff. split; [apply String.eqb_eq; exact Hemail |].
      apply bool_decide_eq_true_2. exact Horg. }
    rewrite Htarget. exists target.
    apply first_filter_found in Htarget as [Hin Hmatch].
    apply andb_true_iff in Hmatch as [Htemail Htorg].
    apply String.eqb_eq in Htemail. apply bool_decide_eq_true_1 in Htorg.
    repeat (split; [assumption |]). reflexivity.
Qed.

(** X16: the role sent to [put_organization_user_self] has no effect.  Two
    payloads that agree on everything but the role give the same outcome
    and the same world, so a user cannot change the own role through this
    endpoint. *)
Theorem put_organization_user_self_ignores_role :
  forall (request : Request) (payload payload' : OrgUserUpdate),
    toupdate_email payload = toupdate_email payload' ->
    update_fields payload = update_fields payload' ->
    put_organization_user_self request payload
    = put_organization_user_self request payload'.
Proof.
  intros request payload payload' Hemail Hfields.
  unfold put_organization_user_self, OrgUserUpdate_set_role.
  rewrite Hemail, Hfields. reflexivity.
Qed.

Lemma pk_eqb (pk other : nat) :
  Nat.eqb pk other = Z.eqb (Z.of_nat pk) (Z.of_nat other).
Proof.
  destruct (Nat.eqb_spec pk other) as [-> | Hne].
  - symmetry. apply Z.eqb_refl.
  - symmetry. apply Z.eqb_neq. lia.
Qed.

(** X17: [delete_invitation] answers 400 to a requestor without an org and
    deletes nothing.  For a requestor with an org, an id that is no number
    raises [ValueError] and deletes nothing; an id that converts to a
    number is answered with success, and afterwards the invitations are
    exactly those with another id, in their order, whether or not an
    invitation had that id, so that deleting the same id again changes
    nothing. *)
Theorem delete_invitation_removes_exactly_that_id :
  forall (request : Request) (invitation_id : string) (t : Tables),
    (orguser_org (request_orguser request) = None ->
     delete_invitation request invitation_id t
     = (Raised (HttpError 400 "create an organization first"), t))
    /\ (is_Some (orguser_org (request_orguser request)) ->
        int_of_str invitation_id = None ->
        exists message,
          delete_invitation request invitation_id t
          = (Raised (ValueError message), t))
    /\ (is_Some (orguser_org (request_orguser request)) ->
        forall id : Z,
          int_of_str invitation_id = Some id ->
          exists t',
            delete_invitation request invitation_id t
            = (Returned (JObj [("success", JNum 1)]), t')
            /\ invitations t'
               = List.filter
                   (fun row => negb (Z.eqb (Z.of_nat (invitation_pk row)) id))
                   (invitations t)
            /\ orgtncs t' = orgtncs t
            /\ delete_invitation request invitation_id t'
               = (Returned (JObj [("success", JNum 1)]), t')).
Proof.
  intros request invitation_id t. unfold delete_invitation.
  split; [| split].
  - intros ->. reflexivity.
  - intros [org ->] ->. eauto.
  - intros [org ->] id ->.
    assert (Hgone : forall rows,
              first (List.filter
                       (fun row => Z.eqb (Z.of_nat (invitation_pk row)) id)
                       (List.filter
                          (fun row => negb (Z.eqb (Z.of_nat (invitation_pk row))
                                                  id)) rows))
              = None).
    { intros rows. apply first_filter_None. intros row Hrow.
      apply elem_of_filter in Hrow as [_ Hrow].
      apply negb_true_iff in Hrow. exact Hrow. }
    destruct (first _) as [invitation |] eqn:Hfirst.
    + apply first_filter_found in Hfirst as [_ Hpk]. apply Z.eqb_eq in Hpk.
      assert (Hsame : List.filter
                (fun row => negb (Nat.eqb (invitation_pk row)
                                          (invitation_pk invitation)))
                (invitations t)
              = List.filter
                  (fun row => negb (Z.eqb (Z.of_nat (invitation_pk row)) id))
                  (invitations t)).
      { apply filter_ext. intros row. rewrite pk_eqb, Hpk. reflexivity. }
      eexists. split; [reflexivity |]. unfold Invitation_delete. simpl.
      rewrite Hsame. split; [reflexivity |]. split; [reflexivity |].
      rewrite Hgone. reflexivity.
    + exists t. split; [reflexivity |].
      assert (Hsame : List.filter
                (fun row => negb (Z.eqb (Z.of_nat (invitation_pk row)) id))
                (invitations t) = invitations t).
      { apply filter_keeps_all. intros row Hrow.
        rewrite (proj1 (first_filter_None _ _) Hfirst row Hrow). reflexivity. }
      split; [symmetry; exact Hsame |]. split; [reflexivity |].
      rewrite Hfirst. reflexivity.
Qed.

(** X18: the terms are accepted at most once per org.  When
    [post_organization_accept_tnc] returns, it has appended one [OrgTnC]
    row for the requestor's org, accepted by the requestor at the time the
    clock shows, and has left the other tables alone; from then on every
    requestor of that org is answered 400 and nothing changes. *)
Theorem accept_tnc_once_per_org :
  forall (request : Request) (w w' : World Outside) (t t' : Tables) (r : json),
    post_organization_accept_tnc request (w, t) = (Returned r, (w', t')) ->
    w' = w
    /\ invitations t' = invitations t
    /\ (exists row,
          orgtncs t' = (orgtncs t ++ [row])%list
          /\ tnc_org row = orguser_org (request_orguser request)
          /\ is_Some (tnc_org row)
          /\ tnc_accepted_by row = orguser_id (request_orguser request)
          /\ tnc_accepted_on row = datetime_now (outside w))
    /\ forall other : Request,
         orguser_org (request_orguser other)
         = orguser_org (request_orguser request) ->
         exists message,
           post_organization_accept_tnc other (w', t')
           = (Raised (HttpError 400 message), (w', t')).
Proof.
  intros request w w' t t' r. unfold post_organization_accept_tnc at 1.
  destruct (orguser_org (request_orguser request)) as [org |] eqn:Horg;
    [| discriminate].
  destruct (match first _ with Some _ => _ | None => _ end); [discriminate |].
  destruct (existsb _ (orgtncs t)) eqn:Hexists; [discriminate |].
  intros Hcall. inversion Hcall. subst r w' t'. clear Hcall.
  split; [reflexivity |]. split; [reflexivity |]. split.
  { eexists. split; [reflexivity |]. simpl. eauto. }
  intros other Hother. unfold post_organization_accept_tnc. rewrite Hother.
  destruct (match first _ with Some _ => _ | None => _ end); [eauto |].
  simpl orgtncs. rewrite existsb_app. simpl.
  rewrite bool_decide_eq_true_2 by reflexivity.
  rewrite orb_true_r. eauto.
Qed.

(** X19: [post_organization_accept_tnc] keeps the [OrgTnC] table free of
    two rows for one org, and a consultant never adds a row: when the first
    attributes row of the requesting user marks a consultant, the tables
    are unchanged whatever the answer. *)
Theorem accept_tnc_keeps_one_row_per_org :
  forall (request : Request) (w : World Outside) (t : Tables),
    let after := snd (post_organization_accept_tnc request (w, t)) in
    (NoDup (map tnc_org (orgtncs t)) ->
     NoDup (map tnc_org (orgtncs (snd after))))
    /\ (forall attributes,
          first (List.filter
                   (fun row =>
                      Nat.eqb (attributes_user row)
                              (user_id (orguser_user (request_orguser request))))
                   (userattributes w)) = Some attributes ->
          is_consultant attributes = true ->
          after = (w, t)).
Proof.
  intros request w t. unfold post_organization_accept_tnc. split.
  - intros Hnodup.
    destruct (orguser_org (request_orguser request)) as [org |]; [| exact Hnodup].
    destruct (match first _ with Some _ => _ | None => _ end); [exact Hnodup |].
    destruct (existsb _ (orgtncs t)) eqn:Hexists; [exact Hnodup |].
    simpl. rewrite map_app. simpl. apply NoDup_app.
    split; [exact Hnodup |]. split; [| apply NoDup_singleton].
    intros key Hkey Hnew. apply list_elem_of_singleton in Hnew. subst key.
    apply list_elem_of_In, in_map_iff in Hkey as (row & Horg & Hin).
    apply not_true_iff_false in Hexists. apply Hexists.
    apply existsb_exists. exists row. split; [exact Hin |].
    apply bool_decide_eq_true_2. exact Horg.
  - intros attributes Hattributes Hconsultant.
    destruct (orguser_org (request_orguser request)) as [org |]; [| reflexivity].
    rewrite Hattributes, Hconsultant. reflexivity.
Qed.

End Facts.

Lemma put_organization_user_authorization_witness :
  put_organization_user (helpers := more_examples.helpers)
    more_examples.a_viewer_request more_examples.an_update
    examples.one_org_world
  = (Raised (HttpError 400 "not authorized to update another user"),
     examples.one_org_world).
Proof.
  apply (proj1 (put_organization_user_authorization
                  (helpers := more_examples.helpers)
                  more_examples.a_viewer_request more_examples.an_update
                  examples.one_org_world)); discriminate.
Defined.

Lemma put_organization_user_self_ignores_role_witness :
  put_organization_user_self (helpers := more_examples.helpers)
    examples.a_member_request more_examples.an_update
  = put_organization_user_self (helpers := more_examples.helpers)
      examples.a_member_request
      (OrgUserUpdate_set_role (Some "report-viewer") more_examples.an_update).
Proof.
  apply (put_organization_user_self_ignores_role
           (helpers := more_examples.helpers)); reflexivity.
Defined.

Lemma delete_invitation_removes_exactly_that_id_witness :
  (exists t',
     delete_invitation (conversions := more_examples.conversions)
       examples.a_member_request "3" more_examples.some_tables
     = (Returned (JObj [("success", JNum 1)]), t')
     /\ invitations t' = [{| invitation_pk := 4; invitation_fields := JNull |}]
     /\ orgtncs t' = []
     /\ delete_invitation (conversions := more_examples.conversions)
          examples.a_member_request "3" t'
        = (Returned (JObj [("success", JNum 1)]), t'))
  /\ (exists message,
        delete_invitation (conversions := more_examples.conversions)
          examples.a_member_request "three" more_examples.some_tables
        = (Raised (ValueError message), more_examples.some_tables)).
Proof.
  split.
  - apply (proj2 (proj2 (delete_invitation_removes_exactly_that_id
                           (conversions := more_examples.conversions)
                           examples.a_member_request "3"
                           more_examples.some_tables))
             ltac:(eexists; reflexivity) 3%Z eq_refl).
  - apply (proj1 (proj2 (delete_invitation_removes_exactly_that_id
                           (conversions := more_examples.conversions)
                           examples.a_member_request "three"
                           more_examples.some_tables))
             ltac:(eexists; reflexivity) eq_refl).
Defined.

Lemma accept_tnc_once_per_org_witness :
  exists message,
    post_organization_accept_tnc (helpers := more_examples.helpers)
      more_examples.a_viewer_request
      (snd (post_organization_accept_tnc (helpers := more_examples.helpers)
              examples.a_member_request
              (examples.one_org_world, more_examples.some_tables)))
    = (Raised (HttpError 400 message),
       snd (post_organization_accept_tnc (helpers := more_examples.helpers)
              examples.a_member_request
              (examples.one_org_world, more_examples.some_tables))).
Proof.
  destruct (accept_tnc_once_per_org (helpers := more_examples.helpers)
              examples.a_member_request examples.one_org_world
              (fst (snd (post_organization_accept_tnc
                           (helpers := more_examples.helpers)
                           examples.a_member_request
                           (examples.one_org_world, more_examples.some_tables))))
              more_examples.some_tables
              (snd (snd (post_organization_accept_tnc
                           (helpers := more_examples.helpers)
                           examples.a_member_request
                           (examples.one_org_world, more_examples.some_tables))))
              (JObj [("success", JNum 1)]) eq_refl)
    as (_ & _ & _ & Hagain).
  apply (Hagain more_examples.a_viewer_request). reflexivity.
Defined.

Lemma accept_tnc_keeps_one_row_per_org_witness :
  NoDup (map tnc_org
           (orgtncs (snd (snd (post_organization_accept_tnc
                                 (helpers := more_examples.helpers)
                                 examples.a_member_request
                                 (examples.one_org_world,
                                  more_examples.some_tables)))))).
Proof.
  apply (proj1 (accept_tnc_keeps_one_row_per_org
                  (helpers := more_examples.helpers)
                  examples.a_member_request examples.one_org_world
                  more_examples.some_tables)).
  simpl. apply NoDup_nil_2.
Defined.

End users_facts.
